(** * md-mmd-pdf: Markdown + Mermaid to PDF/PNG conversion server

    A shallow embedding of [src/converter.ts], [src/index.ts] and
    [src/types.ts].  JavaScript strings are modelled as [string] (the
    characters the code inspects -- [&], [<], [>], [/], [.] -- are ASCII);
    optional object members ([outputPath?: string]) as [option]; an [async]
    function as a computation in a monad that threads the history of calls to
    the external collaborators (file system, Markdown parser, headless
    browser) and may end by throwing. *)

From Stdlib Require Import String Ascii List Bool Arith ZArith Lia.
Import ListNotations.
Set Warnings "-register-all".
Local Open Scope string_scope.

(* ================================================================== *)
(** * JavaScript values *)
(* ================================================================== *)

Module JS.

(** The double-quote character, for the templates that contain it. *)
Definition dquote : string := String "034"%char EmptyString.

(** [x ? a : b] and [!x] on a string: the empty string is falsy. *)
Definition truthy (s : string) : bool := negb (s =? "").

(** Truthiness of an optional string member: [undefined] is falsy. *)
Definition truthy_opt (o : option string) : bool :=
  match o with
  | Some s => truthy s
  | None => false
  end.

(** [o || d] where [o] is an optional string and [d] a string. *)
Definition or_else (o : option string) (d : string) : string :=
  match o with
  | Some s => if truthy s then s else d
  | None => d
  end.

(** [o === s] where [o] is an optional string member. *)
Definition strictEquals (o : option string) (s : string) : bool :=
  match o with
  | Some x => x =? s
  | None => false
  end.

(** Truthiness of an optional boolean member ([escaped?: boolean]). *)
Definition truthy_flag (o : option bool) : bool :=
  match o with
  | Some b => b
  | None => false
  end.

(** A member interpolated in a template literal: [`${o}`]. *)
Definition interpolate (o : option string) : string :=
  match o with
  | Some s => s
  | None => "undefined"
  end.

(** [s.replace(/c/g, by)]: every occurrence of the character [c]
    replaced by the text [by], left to right. *)
Fixpoint replaceAll (c : ascii) (by_ : string) (s : string) : string :=
  match s with
  | EmptyString => EmptyString
  | String x rest =>
      if Ascii.eqb x c then by_ ++ replaceAll c by_ rest
      else String x (replaceAll c by_ rest)
  end.

(** Does the character occur in the string? *)
Fixpoint occurs (c : ascii) (s : string) : bool :=
  match s with
  | EmptyString => false
  | String x rest => Ascii.eqb x c || occurs c rest
  end.

(** What a [throw] carries: an [Error] object with its message, or any
    other value, known here by what [String(value)] gives. *)
Inductive thrown : Type :=
| ErrorObject (message : string)
| OtherValue (shown : string).

(** [error instanceof Error ? error.message : String(error)] *)
Definition errorMessage (e : thrown) : string :=
  match e with
  | ErrorObject m => m
  | OtherValue s => s
  end.

End JS.

(* ================================================================== *)
(** * Node's [path] module (POSIX flavour)

    [convertMarkdownToPDF] derives its default output path with
    [path.dirname], [path.basename], [path.extname] and [path.join].  They
    are library functions; the definitions below follow Node's algorithms
    on the characters of the path, scanned from the end as Node does. *)
(* ================================================================== *)

Module Path.
Local Open Scope list_scope.

Definition chars := list ascii.

Definition slash : ascii := "/"%char.
Definition dot : ascii := "."%char.

Definition isSlash (c : ascii) : bool := Ascii.eqb c slash.
Definition nonSlash (c : ascii) : bool := negb (isSlash c).
Definition isDot (c : ascii) : bool := Ascii.eqb c dot.
Definition nonDot (c : ascii) : bool := negb (isDot c).

Fixpoint takeWhile {A} (f : A -> bool) (l : list A) : list A :=
  match l with
  | [] => []
  | x :: xs => if f x then x :: takeWhile f xs else []
  end.

Fixpoint dropWhile {A} (f : A -> bool) (l : list A) : list A :=
  match l with
  | [] => []
  | x :: xs => if f x then dropWhile f xs else l
  end.

Fixpoint chars_eqb (a b : chars) : bool :=
  match a, b with
  | [], [] => true
  | x :: xs, y :: ys => Ascii.eqb x y && chars_eqb xs ys
  | _, _ => false
  end.

(** The last component of the path, reversed: trailing separators are
    skipped, then characters are taken up to the next separator. *)
Definition lastComponentRev (p : chars) : chars :=
  takeWhile nonSlash (dropWhile isSlash (rev p)).

(** [path.dirname].  The scan runs from the last character down to index
    1; [scanned] is what is left of it once the trailing separators and
    the last component are passed, separator first. *)
Definition dirname_chars (p : chars) : chars :=
  match p with
  | [] => [dot]
  | c0 :: rest =>
      match dropWhile nonSlash (dropWhile isSlash (rev rest)) with
      | [] => if isSlash c0 then [slash] else [dot]
      | _ :: before =>
          if isSlash c0 && Nat.eqb (length before) 0 then [slash; slash]
          else c0 :: rev before
      end
  end.

(** [path.extname]: from the last dot of the last component to its end;
    empty when there is no dot, when the dot opens the component, or when
    the component is [..]. *)
Definition extname_chars (p : chars) : chars :=
  let comp := lastComponentRev p in
  match dropWhile nonDot comp with
  | [] => []
  | _ :: [] => []
  | _ :: _ :: _ =>
      if chars_eqb comp [dot; dot] then []
      else dot :: rev (takeWhile nonDot comp)
  end.

(** How the backwards comparison of the component with the suffix ends:
    the suffix was matched in full (what precedes it is left, reversed), a
    character differed, or the component ran out first. *)
Inductive suffixScan : Type :=
| Matched (before : chars)
| Mismatch
| Exhausted.

Fixpoint scanSuffix (comp_rev suffix_rev : chars) : suffixScan :=
  match suffix_rev, comp_rev with
  | [], before => Matched before
  | _ :: _, [] => Exhausted
  | s :: ss, c :: cs =>
      if Ascii.eqb c s then scanSuffix cs ss else Mismatch
  end.

(** [path.basename(path, suffix)]. *)
Definition basename_chars (p suffix : chars) : chars :=
  let r := rev p in
  let comp_rev := lastComponentRev p in
  if Nat.ltb 0 (length suffix) && Nat.leb (length suffix) (length p) then
    if chars_eqb suffix p then []
    else
      match comp_rev with
      | [] => p
      | _ :: _ =>
          match scanSuffix comp_rev (rev suffix) with
          | Matched [] => rev comp_rev
          | Matched (c :: before) => rev (c :: before)
          | Mismatch => rev comp_rev
          | Exhausted => rev comp_rev ++ takeWhile isSlash r
          end
      end
  else rev comp_rev.

(** The segments between separators; never an empty list. *)
Fixpoint split (p : chars) : list chars :=
  match p with
  | [] => [[]]
  | c :: cs =>
      if isSlash c then [] :: split cs
      else
        match split cs with
        | seg :: segs => (c :: seg) :: segs
        | [] => [[c]]
        end
  end.

(** Segments put back together with a separator between them. *)
Fixpoint unsplit (segs : list chars) : chars :=
  match segs with
  | [] => []
  | [seg] => seg
  | seg :: more => seg ++ slash :: unsplit more
  end.

(** One segment of [normalizeString]; [stack] holds the kept segments,
    the last one first. *)
Definition normalizeStep (allowAboveRoot : bool)
    (stack : list chars) (seg : chars) : list chars :=
  if chars_eqb seg [] || chars_eqb seg [dot] then stack
  else if chars_eqb seg [dot; dot] then
    match stack with
    | top :: below =>
        if chars_eqb top [dot; dot]
        then (if allowAboveRoot then seg :: stack else stack)
        else below
    | [] => if allowAboveRoot then [seg] else []
    end
  else seg :: stack.

Definition normalizeString (p : chars) (allowAboveRoot : bool) : chars :=
  unsplit (rev (fold_left (normalizeStep allowAboveRoot) (split p) [])).

Definition startsWithSlash (p : chars) : bool :=
  match p with
  | c :: _ => isSlash c
  | [] => false
  end.

Definition endsWithSlash (p : chars) : bool := startsWithSlash (rev p).

(** [path.normalize] *)
Definition normalize_chars (p : chars) : chars :=
  match p with
  | [] => [dot]
  | _ :: _ =>
      let isAbsolute := startsWithSlash p in
      let trailingSeparator := endsWithSlash p in
      match normalizeString p (negb isAbsolute) with
      | [] =>
          if isAbsolute then [slash]
          else if trailingSeparator then [dot; slash] else [dot]
      | body =>
          (if isAbsolute then [slash] else [])
            ++ body ++ (if trailingSeparator then [slash] else [])
      end
  end.

(** [path.join(a, b)]: the non-empty arguments joined by a separator,
    then normalized. *)
Definition join_chars (a b : chars) : chars :=
  match a, b with
  | [], [] => [dot]
  | [], _ => normalize_chars b
  | _, [] => normalize_chars a
  | _, _ => normalize_chars (a ++ slash :: b)
  end.

Definition lift1 (f : chars -> chars) (p : string) : string :=
  string_of_list_ascii (f (list_ascii_of_string p)).

Definition dirname : string -> string := lift1 dirname_chars.
Definition extname : string -> string := lift1 extname_chars.
Definition normalize : string -> string := lift1 normalize_chars.

Definition basename (p suffix : string) : string :=
  string_of_list_ascii
    (basename_chars (list_ascii_of_string p) (list_ascii_of_string suffix)).

Definition join (a b : string) : string :=
  string_of_list_ascii
    (join_chars (list_ascii_of_string a) (list_ascii_of_string b)).

End Path.

(* ================================================================== *)
(** * The Markdown parser ([marked])

    The parser is an external collaborator.  What the converter relies on
    is its token stream: a code block reaches [renderer.code] as a token
    with the members [text], [lang] and [escaped]; every other token is
    rendered by the stock renderer, containers (block quotes, list items)
    around the rendering of their children. *)
(* ================================================================== *)

Module Marked.

(** [Tokens.Code]: [{ text: string; lang?: string; escaped?: boolean }] *)
Record Code : Type := mkCode {
  text : string;
  lang : option string;
  escaped : option bool
}.

Inductive Token : Type :=
| CodeBlock (code : Code)
| Container (opening : string) (children : list Token) (closing : string)
| Stock (html : string).

(** The parser's output for a token stream, given the [code] rule. *)
Fixpoint render (code : Code -> string) (tok : Token) : string :=
  match tok with
  | CodeBlock c => code c
  | Container opening children closing =>
      opening ++ String.concat EmptyString (map (render code) children)
        ++ closing
  | Stock html => html
  end.

Definition parse (code : Code -> string) (tokens : list Token) : string :=
  String.concat EmptyString (map (render code) tokens).

End Marked.

(* ================================================================== *)
(** * The page's document

    The operations hand [page.waitForFunction] the text of a readiness
    function, which speaks of the live document.  A document is a tree of
    elements; an element has a tag name, a class list and children. *)
(* ================================================================== *)

Module Dom.

Inductive node : Type :=
| Element (tagName : string) (classList : list string) (children : list node)
| Text (data : string).

(** The node and everything below it, in document order. *)
Fixpoint subtree (n : node) : list node :=
  n :: match n with
       | Element _ _ children => flat_map subtree children
       | Text _ => []
       end.

(** Everything strictly below the node, in document order. *)
Definition descendants (n : node) : list node :=
  match n with
  | Element _ _ children => flat_map subtree children
  | Text _ => []
  end.

Definition hasClass (cls : string) (n : node) : bool :=
  match n with
  | Element _ classList _ => existsb (String.eqb cls) classList
  | Text _ => false
  end.

Definition hasTag (tag : string) (n : node) : bool :=
  match n with
  | Element tagName _ _ => String.eqb tag tagName
  | Text _ => false
  end.

(** [document.querySelectorAll('.cls')] *)
Definition querySelectorAll_class (cls : string) (document : node) : list node :=
  filter (hasClass cls) (subtree document).

(** [document.querySelector('.cls')] *)
Definition querySelector_class (cls : string) (document : node) : option node :=
  find (hasClass cls) (subtree document).

(** [el.querySelector('tag')]: the first matching descendant, or [null]. *)
Definition querySelector_tag (tag : string) (el : node) : option node :=
  find (hasTag tag) (descendants el).

Definition notNull {A} (o : option A) : bool :=
  match o with
  | Some _ => true
  | None => false
  end.

(** The function whose text [convertMarkdownToPDF] hands to
    [page.waitForFunction] (converter.ts 134-142), as it answers when
    called on a document:
<<
    const mermaidElements = document.querySelectorAll('.mermaid');
    if (mermaidElements.length === 0) return true;
    return Array.from(mermaidElements).every(el => {
      const svg = el.querySelector('svg');
      return svg !== null;
    });
>> *)
Definition mermaidElementsRendered (document : node) : bool :=
  let mermaidElements := querySelectorAll_class "mermaid" document in
  if Nat.eqb (List.length mermaidElements) 0 then true
  else forallb (fun el => notNull (querySelector_tag "svg" el)) mermaidElements.

(** The function whose text [convertMermaidToPNG] and
    [convertMermaidToPDF] hand to [page.waitForFunction] (converter.ts
    268-273 and 328-333), as it answers when called on a document:
<<
    const mermaidElement = document.querySelector('.mermaid');
    if (!mermaidElement) return false;
    const svg = mermaidElement.querySelector('svg');
    return svg !== null;
>> *)
Definition mermaidElementRendered (document : node) : bool :=
  match querySelector_class "mermaid" document with
  | None => false
  | Some mermaidElement => notNull (querySelector_tag "svg" mermaidElement)
  end.

(** The first argument of [page.waitForFunction] in the three operations
    is a template literal without substitutions, that is a string: the
    text of the function, not the function. *)
Definition pageFunction : Type := string.

(** converter.ts 134-142 *)
Definition AllMermaidElementsRendered : pageFunction :=
  "() => {
          const mermaidElements = document.querySelectorAll('.mermaid');
          if (mermaidElements.length === 0) return true;

          return Array.from(mermaidElements).every(el => {
            const svg = el.querySelector('svg');
            return svg !== null;
          });
        }".

(** converter.ts 268-273 and 328-333 *)
Definition MermaidElementRendered : pageFunction :=
  "() => {
          const mermaidElement = document.querySelector('.mermaid');
          if (!mermaidElement) return false;
          const svg = mermaidElement.querySelector('svg');
          return svg !== null;
        }".

(** What an expression evaluated in the page can be worth, as far as a
    wait tells values apart: a function object, whatever calling it would
    answer, or a boolean. *)
Inductive value : Type :=
| FunctionObject (answer : node -> bool)
| BooleanValue (b : bool).

(** A function object is truthy. *)
Definition truthyValue (v : value) : bool :=
  match v with
  | FunctionObject _ => true
  | BooleanValue b => b
  end.


(** The value of a text read as an expression, for the two texts of the
    source: the text of an arrow function is worth that function; nothing
    calls it. *)
Definition readExpression (source : pageFunction) : option value :=
  if source =? AllMermaidElementsRendered then
    Some (FunctionObject mermaidElementsRendered)
  else if source =? MermaidElementRendered then
    Some (FunctionObject mermaidElementRendered)
  else None.

End Dom.

(* ================================================================== *)
(** * Effects: calls to the outside world

    An [async] function is a computation that reads and extends the history
    of calls made to the external collaborators and either returns a value
    or throws one.  The history is kept latest call first. *)
(* ================================================================== *)

Module Effects.
Import JS.

Definition Browser := nat.
Definition Page := nat.
Definition ElementHandle := nat.

(** [puppeteer.launch({ headless, args })] *)
Record LaunchOptions : Type := mkLaunchOptions {
  headless : bool;
  args : list string
}.

(** [{ top, right, bottom, left }] *)
Record Margin : Type := mkMargin {
  top : string;
  right : string;
  bottom : string;
  left : string
}.

(** [page.pdf({ path, format, margin, printBackground })] *)
Record PDFOptions : Type := mkPDFOptions {
  pdf_path : string;
  format : string;
  margin : Margin;
  printBackground : bool
}.

(** [element.screenshot({ path, omitBackground })] *)
Record ScreenshotOptions : Type := mkScreenshotOptions {
  screenshot_path : string;
  omitBackground : bool
}.

Inductive event : Type :=
| EvReadFile (path encoding : string)
| EvLaunch (options : LaunchOptions) (acquired : option Browser)
| EvNewPage (browser : Browser)
| EvSetContent (page : Page) (html waitUntil : string)
| EvWaitForFunction (page : Page) (f : Dom.pageFunction) (timeout : Z)
| EvPdf (page : Page) (options : PDFOptions)
| EvQuery (page : Page) (selector : string)
| EvScreenshot (element : ElementHandle) (options : ScreenshotOptions)
| EvClose (browser : Browser).

Definition History := list event.

Inductive outcome (A : Type) : Type :=
| Returned (value : A)
| Threw (error : thrown).
Arguments Returned {A} value.
Arguments Threw {A} error.

(** The external collaborators.  Each answer may depend on everything that
    happened before; nothing else is assumed of them.  [document_at page h
    t] is the document of [page], [t] milliseconds after the moment the
    history was [h]. *)
Record Driver : Type := mkDriver {
  fs_readFile : string -> string -> History -> outcome string;
  marked_lexer : string -> outcome (list Marked.Token);
  puppeteer_launch : LaunchOptions -> History -> outcome Browser;
  browser_newPage : Browser -> History -> outcome Page;
  page_setContent : Page -> string -> string -> History -> outcome unit;
  page_waitForFunction :
    Page -> Dom.pageFunction -> Z -> History -> outcome unit;
  page_pdf : Page -> PDFOptions -> History -> outcome unit;
  page_query : Page -> string -> History -> outcome (option ElementHandle);
  element_screenshot :
    ElementHandle -> ScreenshotOptions -> History -> outcome unit;
  browser_close : Browser -> History -> outcome unit;
  document_at : Page -> History -> Z -> Dom.node
}.

Definition M (A : Type) : Type := History -> outcome A * History.

Definition ret {A} (a : A) : M A := fun h => (Returned a, h).

Definition throw {A} (e : thrown) : M A := fun h => (Threw e, h).

Definition bind {A B} (c : M A) (k : A -> M B) : M B :=
  fun h =>
    match c h with
    | (Returned a, h1) => k a h1
    | (Threw e, h1) => (Threw e, h1)
    end.

(** [try { body } catch (error) { handler }] *)
Definition tryCatch {A} (body : M A) (handler : thrown -> M A) : M A :=
  fun h =>
    match body h with
    | (Returned a, h1) => (Returned a, h1)
    | (Threw e, h1) => handler e h1
    end.

(** [try { body } finally { finalizer }]: the finalizer always runs; if
    it throws, that replaces the outcome of the body. *)
Definition tryFinally {A} (body : M A) (finalizer : M unit) : M A :=
  fun h =>
    match body h with
    | (r, h1) =>
        match finalizer h1 with
        | (Returned _, h2) => (r, h2)
        | (Threw e, h2) => (Threw e, h2)
        end
    end.

(** A call to a collaborator: its answer is decided on the history so
    far, and the call joins the history. *)
Definition perform {A} (ev : event) (answer : History -> outcome A) : M A :=
  fun h => (answer h, ev :: h).

(** A call to a pure collaborator. *)
Definition pure_call {A} (answer : outcome A) : M A :=
  fun h => (answer, h).

Definition acquiredBrowser (r : outcome Browser) : option Browser :=
  match r with
  | Returned b => Some b
  | Threw _ => None
  end.

End Effects.

Declare Scope async_scope.
Delimit Scope async_scope with async.
Notation "x <- c ;; k" := (Effects.bind c (fun x => k))
  (at level 61, c at next level, right associativity) : async_scope.
Notation "c ;;; k" := (Effects.bind c (fun _ => k))
  (at level 61, right associativity) : async_scope.

(* ================================================================== *)
(** * [src/types.ts] *)
(* ================================================================== *)

(** Options for converting Markdown to PDF. *)
Record ConversionOptions : Type := mkConversionOptions {
  inputPath : string;
  outputPath : option string;
  customCSS : option string
}.

(** Result of a conversion operation; [MermaidConversionResult] has the
    same members, so one record serves both. *)
Record ConversionResult : Type := mkConversionResult {
  success : bool;
  result_outputPath : option string;
  error : option string
}.

(** Options for converting a standalone Mermaid diagram to PNG or PDF. *)
Record MermaidConversionOptions : Type := mkMermaidConversionOptions {
  mermaidCode : string;
  mermaid_outputPath : string
}.

(* ================================================================== *)
(** * [src/converter.ts] *)
(* ================================================================== *)

Module Converter.
Import JS Effects.
Local Open Scope async_scope.

Definition newline : string := String "010"%char EmptyString.

(** Default CSS styles for the PDF output (converter.ts 10-79). *)
Definition DEFAULT_CSS : string :=
"
  body {
    font-family: -apple-system, BlinkMacSystemFont, 'Segoe UI', Roboto, 'Helvetica Neue', Arial, sans-serif;
    line-height: 1.6;
    color: #333;
    max-width: 900px;
    margin: 0 auto;
    padding: 2rem;
  }

  h1, h2, h3, h4, h5, h6 {
    margin-top: 1.5em;
    margin-bottom: 0.5em;
    font-weight: 600;
  }

  h1 { font-size: 2.5em; border-bottom: 2px solid #eee; padding-bottom: 0.3em; }
  h2 { font-size: 2em; border-bottom: 1px solid #eee; padding-bottom: 0.3em; }
  h3 { font-size: 1.5em; }

  code {
    background-color: #f6f8fa;
    padding: 0.2em 0.4em;
    border-radius: 3px;
    font-family: 'SFMono-Regular', Consolas, 'Liberation Mono', Menlo, monospace;
    font-size: 0.9em;
  }

  pre {
    background-color: #f6f8fa;
    padding: 1em;
    border-radius: 6px;
    overflow-x: auto;
  }

  pre code {
    background-color: transparent;
    padding: 0;
  }

  blockquote {
    border-left: 4px solid #ddd;
    padding-left: 1em;
    color: #666;
    margin-left: 0;
  }

  table {
    border-collapse: collapse;
    width: 100%;
    margin: 1em 0;
  }

  table th, table td {
    border: 1px solid #ddd;
    padding: 0.5em;
    text-align: left;
  }

  table th {
    background-color: #f6f8fa;
    font-weight: 600;
  }

  .mermaid {
    display: flex;
    justify-content: center;
    margin: 2em 0;
  }
".

(** [text.replace(/&/g, '&amp;').replace(/</g, '&lt;').replace(/>/g, '&gt;')] *)
Definition escapeHTML (text : string) : string :=
  replaceAll ">"%char "&gt;"
    (replaceAll "<"%char "&lt;" (replaceAll "&"%char "&amp;" text)).

(** The [renderer.code] override (converter.ts 94-103). *)
Definition renderer_code (token : Marked.Code) : string :=
  let text := Marked.text token in
  let lang := Marked.lang token in
  if strictEquals lang "mermaid" then
    "<div class=" ++ dquote ++ "mermaid" ++ dquote ++ ">" ++ newline
      ++ text ++ newline ++ "</div>" ++ newline
  else
    let langClass :=
      if truthy_opt lang
      then " class=" ++ dquote ++ "language-" ++ interpolate lang ++ dquote
      else EmptyString in
    let code :=
      if truthy_flag (Marked.escaped token) then text else escapeHTML text in
    "<pre><code" ++ langClass ++ ">" ++ code ++ "</code></pre>" ++ newline.

(** The output path of [convertMarkdownToPDF] (converter.ts 111-115). *)
Definition resolveOutputPath (options : ConversionOptions) : string :=
  or_else (outputPath options)
    (Path.join
       (Path.dirname (inputPath options))
       (Path.basename (inputPath options) (Path.extname (inputPath options))
          ++ ".pdf")).

(** The text of the full document's template before the default styles:
    the document head up to the opening of the style section. *)
Definition fullDocumentOpening : string :=
  "<!DOCTYPE html>
<html lang=" ++ dquote ++ "en" ++ dquote ++ ">
<head>
  <meta charset=" ++ dquote ++ "UTF-8" ++ dquote ++ ">
  <meta name=" ++ dquote ++ "viewport" ++ dquote ++ " content=" ++ dquote ++ "width=device-width, initial-scale=1.0" ++ dquote ++ ">
  <title>Markdown to PDF</title>
  <script type=" ++ dquote ++ "module" ++ dquote ++ ">
    import mermaid from 'https://cdn.jsdelivr.net/npm/mermaid@11/dist/mermaid.esm.min.mjs';
    mermaid.initialize({
      startOnLoad: true,
      theme: 'default',
      securityLevel: 'loose'
    });
  </script>
  <style>
    ".

(** Creates a complete HTML document with Mermaid support
    (converter.ts 177-201). *)
Definition createHTMLDocument (bodyHTML : string) (customCSS : option string)
    : string :=
  fullDocumentOpening
    ++ DEFAULT_CSS
    ++ "
    "
    ++ or_else customCSS EmptyString
    ++ "
  </style>
</head>
<body>
  "
    ++ bodyHTML
    ++ "
</body>
</html>".

(** Creates a minimal HTML document with just a Mermaid diagram
    (converter.ts 206-242). *)
Definition createMermaidOnlyHTML (mermaidCode : string) : string :=
  "<!DOCTYPE html>
<html lang=" ++ dquote ++ "en" ++ dquote ++ ">
<head>
  <meta charset=" ++ dquote ++ "UTF-8" ++ dquote ++ ">
  <meta name=" ++ dquote ++ "viewport" ++ dquote ++ " content=" ++ dquote ++ "width=device-width, initial-scale=1.0" ++ dquote ++ ">
  <title>Mermaid Diagram</title>
  <script type=" ++ dquote ++ "module" ++ dquote ++ ">
    import mermaid from 'https://cdn.jsdelivr.net/npm/mermaid@11/dist/mermaid.esm.min.mjs';
    mermaid.initialize({
      startOnLoad: true,
      theme: 'default',
      securityLevel: 'loose'
    });
  </script>
  <style>
    body {
      margin: 0;
      padding: 20px;
      display: flex;
      justify-content: center;
      align-items: center;
      min-height: 100vh;
      background: white;
    }
    .mermaid {
      max-width: 100%;
    }
  </style>
</head>
<body>
  <div class=" ++ dquote ++ "mermaid" ++ dquote ++ ">
"
    ++ mermaidCode
    ++ "
  </div>
</body>
</html>".

(** [{ top: m, right: m, bottom: m, left: m }] *)
Definition margins (m : string) : Margin :=
  {| top := m; right := m; bottom := m; left := m |}.

Definition launchOptions : LaunchOptions :=
  {| headless := true;
     args := ["--no-sandbox"; "--disable-setuid-sandbox"] |}.

(** The deadline given to every [page.waitForFunction], in milliseconds. *)
Definition renderTimeout : Z := 30000%Z.

Definition succeeded (path : string) : ConversionResult :=
  {| success := true; result_outputPath := Some path; error := None |}.

Definition failed (e : thrown) : ConversionResult :=
  {| success := false; result_outputPath := None;
     error := Some (errorMessage e) |}.

Section Operations.
Variable drv : Driver.

Definition readFile (path encoding : string) : M string :=
  perform (EvReadFile path encoding) (fs_readFile drv path encoding).

(** [marked.use({ renderer }); await marked(markdownContent)] *)
Definition marked (markdownContent : string) : M string :=
  tokens <- pure_call (marked_lexer drv markdownContent) ;;
  ret (Marked.parse renderer_code tokens).

Definition launch (options : LaunchOptions) : M Browser :=
  fun h =>
    let r := puppeteer_launch drv options h in
    (r, EvLaunch options (acquiredBrowser r) :: h).

Definition newPage (browser : Browser) : M Page :=
  perform (EvNewPage browser) (browser_newPage drv browser).

Definition setContent (page : Page) (html waitUntil : string) : M unit :=
  perform (EvSetContent page html waitUntil)
    (page_setContent drv page html waitUntil).

Definition waitForFunction (page : Page) (f : Dom.pageFunction)
    (timeout : Z) : M unit :=
  perform (EvWaitForFunction page f timeout)
    (page_waitForFunction drv page f timeout).

Definition pdf (page : Page) (options : PDFOptions) : M unit :=
  perform (EvPdf page options) (page_pdf drv page options).

(** [page.$(selector)] *)
Definition query (page : Page) (selector : string)
    : M (option ElementHandle) :=
  perform (EvQuery page selector) (page_query drv page selector).

Definition screenshot (element : ElementHandle)
    (options : ScreenshotOptions) : M unit :=
  perform (EvScreenshot element options)
    (element_screenshot drv element options).

Definition close (browser : Browser) : M unit :=
  perform (EvClose browser) (browser_close drv browser).

(** Converts a Markdown file with Mermaid diagrams to PDF
    (converter.ts 84-172). *)
Definition convertMarkdownToPDF (options : ConversionOptions)
    : M ConversionResult :=
  tryCatch
    (markdownContent <- readFile (inputPath options) "utf-8" ;;
     htmlContent <- marked markdownContent ;;
     let outputPath := resolveOutputPath options in
     let fullHTML := createHTMLDocument htmlContent (customCSS options) in
     browser <- launch launchOptions ;;
     tryFinally
       (page <- newPage browser ;;
        setContent page fullHTML "networkidle0" ;;;
        waitForFunction page Dom.AllMermaidElementsRendered renderTimeout ;;;
        pdf page {| pdf_path := outputPath; format := "A4";
                    margin := margins "20mm"; printBackground := true |} ;;;
        ret (succeeded outputPath))
       (close browser))
    (fun error => ret (failed error)).

(** Converts a standalone Mermaid diagram to PNG
    (converter.ts 247-302). *)
Definition convertMermaidToPNG (options : MermaidConversionOptions)
    : M ConversionResult :=
  tryCatch
    (let fullHTML := createMermaidOnlyHTML (mermaidCode options) in
     browser <- launch launchOptions ;;
     tryFinally
       (page <- newPage browser ;;
        setContent page fullHTML "networkidle0" ;;;
        waitForFunction page Dom.MermaidElementRendered renderTimeout ;;;
        svgElement <- query page ".mermaid svg" ;;
        match svgElement with
        | None => throw (ErrorObject "Failed to render Mermaid diagram")
        | Some element =>
            screenshot element
              {| screenshot_path := mermaid_outputPath options;
                 omitBackground := false |} ;;;
            ret (succeeded (mermaid_outputPath options))
        end)
       (close browser))
    (fun error => ret (failed error)).

(** Converts a standalone Mermaid diagram to PDF
    (converter.ts 307-363). *)
Definition convertMermaidToPDF (options : MermaidConversionOptions)
    : M ConversionResult :=
  tryCatch
    (let fullHTML := createMermaidOnlyHTML (mermaidCode options) in
     browser <- launch launchOptions ;;
     tryFinally
       (page <- newPage browser ;;
        setContent page fullHTML "networkidle0" ;;;
        waitForFunction page Dom.MermaidElementRendered renderTimeout ;;;
        pdf page {| pdf_path := mermaid_outputPath options; format := "A4";
                    margin := margins "10mm"; printBackground := true |} ;;;
        ret (succeeded (mermaid_outputPath options)))
       (close browser))
    (fun error => ret (failed error)).

End Operations.

End Converter.

(* ================================================================== *)
(** * [src/index.ts]: the tool front-end *)
(* ================================================================== *)

Module Server.
Import JS Effects.
Local Open Scope async_scope.

(** [request.params.arguments], as the handler casts it: an object whose
    members are optional strings, which is also what each tool's
    [inputSchema] declares ([type: 'string']).  The cast checks nothing
    when the program runs; a request whose members are of another JSON
    type is not covered here. *)
Record ToolArguments : Type := mkToolArguments {
  input_path : option string;
  output_path : option string;
  custom_css : option string;
  mermaid_code : option string
}.

(** [request.params] of a tool call.  The protocol schema declares
    [arguments] optional, so it may be [undefined] when the handler is
    entered. *)
Record CallToolRequest : Type := mkCallToolRequest {
  name : string;
  arguments : option ToolArguments
}.

Record TextContent : Type := mkTextContent {
  type : string;
  text : string
}.

Record CallToolResult : Type := mkCallToolResult {
  content : list TextContent;
  isError : option bool
}.

(** A tool as listed by the [ListToolsRequestSchema] handler (index.ts
    48-119): its name, the properties of its input schema and the
    required ones.  Descriptions are left out. *)
Record Tool : Type := mkTool {
  tool_name : string;
  properties : list string;
  required : list string
}.

Definition tools : list Tool :=
  [ {| tool_name := "convert_md_to_pdf";
       properties := ["input_path"; "output_path"; "custom_css"];
       required := ["input_path"] |};
    {| tool_name := "convert_mermaid_to_png";
       properties := ["mermaid_code"; "output_path"];
       required := ["mermaid_code"; "output_path"] |};
    {| tool_name := "convert_mermaid_to_pdf";
       properties := ["mermaid_code"; "output_path"];
       required := ["mermaid_code"; "output_path"] |} ].

(** [args[key]] for the keys the handler reads. *)
Definition member (args : ToolArguments) (key : string) : option string :=
  if key =? "input_path" then input_path args
  else if key =? "output_path" then output_path args
  else if key =? "custom_css" then custom_css args
  else if key =? "mermaid_code" then mermaid_code args
  else None.

(** [args] with the member [key] deleted. *)
Definition without (key : string) (args : ToolArguments) : ToolArguments :=
  {| input_path := if key =? "input_path" then None else input_path args;
     output_path := if key =? "output_path" then None else output_path args;
     custom_css := if key =? "custom_css" then None else custom_css args;
     mermaid_code :=
       if key =? "mermaid_code" then None else mermaid_code args |}.

Definition textResult (message : string) (flag : option bool)
    : CallToolResult :=
  {| content := [ {| type := "text"; text := message |} ];
     isError := flag |}.

(** Reading a member of [undefined]. *)
Definition undefinedMember (key : string) : thrown :=
  ErrorObject
    ("Cannot read properties of undefined (reading '" ++ key ++ "')").

(** The value of a member that passed a [!args.member] guard. *)
Definition guarded (o : option string) : string :=
  match o with
  | Some s => s
  | None => EmptyString
  end.

(** How each handler branch shapes the result of its conversion. *)
Definition respond (what : string) (result : ConversionResult)
    : CallToolResult :=
  if success result then
    textResult
      ("Successfully converted " ++ what ++ "!" ++ Converter.newline
         ++ "Output: " ++ interpolate (result_outputPath result))
      None
  else
    textResult ("Conversion failed: " ++ interpolate (error result))
      (Some true).

Section Handler.
Variable drv : Driver.

(** The [CallToolRequestSchema] handler (index.ts 122-275). *)
Definition callTool (request : CallToolRequest) : M CallToolResult :=
  if name request =? "convert_md_to_pdf" then
    match arguments request with
    | None => throw (undefinedMember "input_path")
    | Some args =>
        if negb (truthy_opt (input_path args)) then
          ret (textResult "Error: input_path is required" (Some true))
        else
          let options :=
            {| inputPath := guarded (input_path args);
               outputPath := output_path args;
               customCSS := custom_css args |} in
          result <- Converter.convertMarkdownToPDF drv options ;;
          ret (respond "Markdown to PDF" result)
    end
  else if name request =? "convert_mermaid_to_png" then
    match arguments request with
    | None => throw (undefinedMember "mermaid_code")
    | Some args =>
        if negb (truthy_opt (mermaid_code args))
           || negb (truthy_opt (output_path args)) then
          ret (textResult
                 "Error: mermaid_code and output_path are required"
                 (Some true))
        else
          let options :=
            {| mermaidCode := guarded (mermaid_code args);
               mermaid_outputPath := guarded (output_path args) |} in
          result <- Converter.convertMermaidToPNG drv options ;;
          ret (respond "Mermaid diagram to PNG" result)
    end
  else if name request =? "convert_mermaid_to_pdf" then
    match arguments request with
    | None => throw (undefinedMember "mermaid_code")
    | Some args =>
        if negb (truthy_opt (mermaid_code args))
           || negb (truthy_opt (output_path args)) then
          ret (textResult
                 "Error: mermaid_code and output_path are required"
                 (Some true))
        else
          let options :=
            {| mermaidCode := guarded (mermaid_code args);
               mermaid_outputPath := guarded (output_path args) |} in
          result <- Converter.convertMermaidToPDF drv options ;;
          ret (respond "Mermaid diagram to PDF" result)
    end
  else
    ret (textResult ("Unknown tool: " ++ name request) (Some true)).

End Handler.

(** The message a tool answers with when a required argument is missing. *)
Definition missingArgumentMessage (tool : string) : string :=
  if tool =? "convert_md_to_pdf" then "Error: input_path is required"
  else "Error: mermaid_code and output_path are required".

Definition missingArgumentResult (tool : string) : CallToolResult :=
  textResult (missingArgumentMessage tool) (Some true).

End Server.

(* ================================================================== *)
(** * Statements of the specification *)
(* ================================================================== *)

Module Spec.
Import JS Effects Converter.

(** "The input path with its extension replaced": the path without the
    characters of its extension ([path.extname]), followed by the new
    extension. *)
Definition replaceExtension (p newExtension : string) : string :=
  let cs := list_ascii_of_string p in
  string_of_list_ascii
    (firstn (List.length cs - List.length (Path.extname_chars cs)) cs)
    ++ newExtension.

(** A path that can name a file: it does not end with a separator. *)
Definition namesFile (p : string) : bool :=
  negb (Path.endsWithSlash (list_ascii_of_string p)).

(** A segment that [path.normalize] keeps as it is. *)
Definition plainSegment (seg : Path.chars) : bool :=
  negb (Path.chars_eqb seg [])
  && negb (Path.chars_eqb seg [Path.dot])
  && negb (Path.chars_eqb seg [Path.dot; Path.dot])
  && forallb Path.nonSlash seg.

(** The absolute path [/seg1/seg2/.../segn]. *)
Fixpoint absolutePath (segs : list Path.chars) : Path.chars :=
  match segs with
  | [] => []
  | seg :: more => ((Path.slash :: seg) ++ absolutePath more)%list
  end.

(** A result is well formed when exactly one of its optional members is
    there: [outputPath] iff [success], [error] iff not. *)
Definition wellFormed (r : ConversionResult) : Prop :=
  (success r = true <-> result_outputPath r <> None)
  /\ (success r = false <-> error r <> None)
  /\ (result_outputPath r = None <-> error r <> None).

(** The calls an operation added to the history release the browser
    when, a browser having been acquired, the latest call closes it. *)
Definition releasesBrowser (added : History) : Prop :=
  forall options b,
    In (EvLaunch options (Some b)) added ->
    exists before, added = EvClose b :: before.

(** What is assumed of [page.waitForFunction(text, { timeout })] for a
    string argument: the library evaluates the string as an expression in
    the page (it wraps it as [() => {return (text);}]) and comes back
    as soon as the value is truthy. *)
Definition waitsForExpression (drv : Driver) : Prop :=
  forall page source v timeout h,
    Dom.readExpression source = Some v ->
    Dom.truthyValue v = true ->
    page_waitForFunction drv page source timeout h = Returned tt.

(** No vector graphic ever appears below a diagram container of the page
    once the calls [h] are made, and a container is there. *)
Definition neverDrawn (drv : Driver) (page : Page) (h : History) : Prop :=
  forall t,
    (0 <= t)%Z ->
    exists el,
      In el (Dom.querySelectorAll_class "mermaid" (document_at drv page h t))
      /\ forall el',
           In el' (Dom.querySelectorAll_class "mermaid"
                     (document_at drv page h t)) ->
           Dom.querySelector_tag "svg" el' = None.


(** The directory part of a path: everything up to and including the
    separator before the last component. *)
Definition directoryPart (p : Path.chars) : Path.chars :=
  rev (Path.dropWhile Path.nonSlash (rev p)).

(** C3 as the specification words it: with no output path given, the
    resolved path is the input path with its extension replaced by
    [.pdf]. *)
Definition defaultPathAsStated : Prop :=
  forall input css,
    resolveOutputPath
      {| inputPath := input; outputPath := None; customCSS := css |}
    = replaceExtension input ".pdf".

(** One character of the block text as [escapeHTML] leaves it. *)
Definition escapeCharacter (c : ascii) : string :=
  if Ascii.eqb c "&"%char then "&amp;"
  else if Ascii.eqb c "<"%char then "&lt;"
  else if Ascii.eqb c ">"%char then "&gt;"
  else String c EmptyString.

(** A text with each of its characters escaped, in one pass. *)
Fixpoint escapeEach (text : string) : string :=
  match text with
  | EmptyString => EmptyString
  | String c rest => escapeCharacter c ++ escapeEach rest
  end.

(** The diagram container around a text. *)
Definition mermaidContainer (text : string) : string :=
  "<div class=" ++ dquote ++ "mermaid" ++ dquote ++ ">" ++ newline
    ++ text ++ newline ++ "</div>" ++ newline.

(** A code block with the given attributes of its [code] element. *)
Definition codeBlock (attributes body : string) : string :=
  "<pre><code" ++ attributes ++ ">" ++ body ++ "</code></pre>" ++ newline.

Definition languageClass (tag : string) : string :=
  " class=" ++ dquote ++ "language-" ++ tag ++ dquote.

(** C2 as the specification words it: a block tagged [mermaid] becomes the
    diagram container around its raw text, and a block with any other tag
    becomes a code block with class [language-<tag>] and an escaped body. *)
Definition codeRuleAsStated : Prop :=
  forall token tag,
    Marked.lang token = Some tag ->
    (tag = "mermaid" ->
     renderer_code token = mermaidContainer (Marked.text token))
    /\ (tag <> "mermaid" ->
        renderer_code token
        = codeBlock (languageClass tag) (escapeHTML (Marked.text token))).

(** The same, for blocks whose tag is not empty. *)
Definition codeRuleForTaggedBlocks : Prop :=
  forall token tag,
    Marked.lang token = Some tag -> tag <> "" ->
    (tag = "mermaid" ->
     renderer_code token = mermaidContainer (Marked.text token))
    /\ (tag <> "mermaid" ->
        renderer_code token
        = codeBlock (languageClass tag) (escapeHTML (Marked.text token))).

(** The text of the full document's template between the two style
    sheets, and from the end of the style section on. *)
Definition styleSeparator : string := newline ++ "    ".

Definition fullDocumentClosing (bodyHTML : string) : string :=
  newline ++ "  </style>" ++ newline ++ "</head>" ++ newline ++ "<body>"
    ++ newline ++ "  " ++ bodyHTML ++ newline ++ "</body>" ++ newline
    ++ "</html>".

End Spec.

(* ================================================================== *)
(** * A driver to run the model on

    One readable file, one browser, one page whose document follows a given
    timeline, and a [waitForFunction] that evaluates the string it is given
    as an expression. *)
(* ================================================================== *)

Module Reference.
Import JS Effects.

Definition timeoutError : thrown :=
  ErrorObject "Waiting failed: deadline exceeded".

Definition syntaxError : thrown :=
  ErrorObject "SyntaxError: Unexpected token".

(** The wait on a string: a truthy value ends it at once; a value that
    is not truthy stays so, and the wait ends at the deadline. *)
Definition waitOn (source : Dom.pageFunction) : outcome unit :=
  match Dom.readExpression source with
  | Some v => if Dom.truthyValue v then Returned tt else Threw timeoutError
  | None => Threw syntaxError
  end.

Definition driver (file content : string) (tokens : list Marked.Token)
    (timeline : Z -> Dom.node) : Driver :=
  {| fs_readFile := fun path _ _ =>
       if path =? file then Returned content
       else Threw (ErrorObject
                     ("ENOENT: no such file or directory, open '"
                        ++ path ++ "'"));
     marked_lexer := fun _ => Returned tokens;
     puppeteer_launch := fun _ _ => Returned 1;
     browser_newPage := fun _ _ => Returned 1;
     page_setContent := fun _ _ _ _ => Returned tt;
     page_waitForFunction := fun _ source _ _ => waitOn source;
     page_pdf := fun _ _ _ => Returned tt;
     page_query := fun _ _ _ => Returned (Some 1);
     element_screenshot := fun _ _ _ => Returned tt;
     browser_close := fun _ _ => Returned tt;
     document_at := fun _ _ t => timeline t |}.

(** A page with one diagram container and nothing drawn in it. *)
Definition blankDiagram : Dom.node :=
  Dom.Element "html" []
    [ Dom.Element "body" []
        [ Dom.Element "div" ["mermaid"] [ Dom.Text "graph TD" ] ] ].

(** The same page once the diagram is drawn. *)
Definition drawnDiagram : Dom.node :=
  Dom.Element "html" []
    [ Dom.Element "body" []
        [ Dom.Element "div" ["mermaid"] [ Dom.Element "svg" [] [] ] ] ].

(** A page without any diagram container. *)
Definition plainPage : Dom.node :=
  Dom.Element "html" []
    [ Dom.Element "body" []
        [ Dom.Element "h1" [] [ Dom.Text "Title" ] ] ].

(** A driver whose page never draws its diagram. *)
Definition stuck : Driver :=
  driver "/x/doc.md" "# Title"
    [ Marked.CodeBlock
        {| Marked.text := "graph TD"; Marked.lang := Some "mermaid";
           Marked.escaped := None |} ]
    (fun _ => blankDiagram).

(** A driver whose page has no diagram at all. *)
Definition plain : Driver :=
  driver "/x/doc.md" "# Title" [ Marked.Stock "<h1>Title</h1>" ]
    (fun _ => plainPage).




(** A driver whose page draws its diagram after 250 ms. *)
Definition drawing : Driver :=
  driver "/x/doc.md" "# Title"
    [ Marked.CodeBlock
        {| Marked.text := "graph TD"; Marked.lang := Some "mermaid";
           Marked.escaped := None |} ]
    (fun t => if (t <? 250)%Z then blankDiagram else drawnDiagram).

(** The PNG tool as listed, and arguments for it whose [output_path] is
    the empty string. *)
Definition pngTool : Server.Tool :=
  {| Server.tool_name := "convert_mermaid_to_png";
     Server.properties := ["mermaid_code"; "output_path"];
     Server.required := ["mermaid_code"; "output_path"] |}.

Definition emptyOutputPath : Server.ToolArguments :=
  {| Server.input_path := None; Server.output_path := Some EmptyString;
     Server.custom_css := None; Server.mermaid_code := Some "graph TD" |}.

End Reference.


(* ================================================================== *)
(** * Reading a history and an answer *)
(* ================================================================== *)

Module Reading.
Import JS Effects Server.

Definition isLaunch (ev : event) : bool :=
  match ev with
  | EvLaunch _ _ => true
  | _ => false
  end.

Definition isWait (ev : event) : bool :=
  match ev with
  | EvWaitForFunction _ _ _ => true
  | _ => false
  end.

(** A capture is a call that writes the output file. *)
Definition isCapture (ev : event) : bool :=
  match ev with
  | EvPdf _ _ => true
  | EvScreenshot _ _ => true
  | _ => false
  end.

Definition isClose (ev : event) : bool :=
  match ev with
  | EvClose _ => true
  | _ => false
  end.

(** How many of the calls are of the given kind. *)
Definition count (kind : event -> bool) (calls : History) : nat :=
  List.length (filter kind calls).

(** The file a capture writes. *)
Definition capturedPath (ev : event) : option string :=
  match ev with
  | EvPdf _ options => Some (pdf_path options)
  | EvScreenshot _ options => Some (screenshot_path options)
  | _ => None
  end.

(** No kind of call is made twice among [added], the calls a run made on
    top of [h], and a capture comes only after a wait of the same run,
    with the deadline of the operations, that returned. *)
Definition orderly (drv : Driver) (h added : History) : Prop :=
  count isLaunch added <= 1
  /\ count isWait added <= 1
  /\ count isCapture added <= 1
  /\ count isClose added <= 1
  /\ forall ev,
       In ev added ->
       isCapture ev = true ->
       exists page f earlier after,
         added
         = (after ++ EvWaitForFunction page f Converter.renderTimeout
                     :: earlier)%list
         /\ In ev after
         /\ page_waitForFunction drv page f Converter.renderTimeout
              (earlier ++ h)%list
            = Returned tt.

(** A browser whose every call returns, the wait within the deadline the
    operations give it. *)
Definition reliableBrowser (drv : Driver) : Prop :=
  (forall options h, exists b, puppeteer_launch drv options h = Returned b)
  /\ (forall b h, exists page, browser_newPage drv b h = Returned page)
  /\ (forall page html waitUntil h,
        page_setContent drv page html waitUntil h = Returned tt)
  /\ (forall page f h,
        page_waitForFunction drv page f Converter.renderTimeout h
        = Returned tt)
  /\ (forall page options h, page_pdf drv page options h = Returned tt)
  /\ (forall page selector h, exists element,
        page_query drv page selector h = Returned (Some element))
  /\ (forall element options h,
        element_screenshot drv element options h = Returned tt)
  /\ (forall b h, browser_close drv b h = Returned tt).

(** [part] occurs in [whole]. *)
Definition contains (part whole : string) : Prop :=
  exists before after, whole = before ++ part ++ after.

(** A code block among the tokens below a token, at any depth. *)
Inductive hasBlock (c : Marked.Code) : Marked.Token -> Prop :=
| BlockHere : hasBlock c (Marked.CodeBlock c)
| BlockBelow (opening closing : string) (children : list Marked.Token)
    (child : Marked.Token) :
    In child children ->
    hasBlock c child ->
    hasBlock c (Marked.Container opening children closing).

(** The line each listed tool opens a success answer with. *)
Definition successLine (tool : string) : string :=
  if tool =? "convert_md_to_pdf" then
    "Successfully converted Markdown to PDF!"
  else if tool =? "convert_mermaid_to_png" then
    "Successfully converted Mermaid diagram to PNG!"
  else "Successfully converted Mermaid diagram to PDF!".

(** The conversion each listed tool stands for, on the arguments of a
    request. *)
Definition conversion (drv : Driver) (tool : string) (args : ToolArguments)
    : M ConversionResult :=
  if tool =? "convert_md_to_pdf" then
    Converter.convertMarkdownToPDF drv
      {| inputPath := guarded (input_path args);
         outputPath := output_path args;
         customCSS := custom_css args |}
  else if tool =? "convert_mermaid_to_png" then
    Converter.convertMermaidToPNG drv
      {| mermaidCode := guarded (mermaid_code args);
         mermaid_outputPath := guarded (output_path args) |}
  else
    Converter.convertMermaidToPDF drv
      {| mermaidCode := guarded (mermaid_code args);
         mermaid_outputPath := guarded (output_path args) |}.

(** The answer to a tool call whose conversion gave [result]. *)
Definition answerOf (tool : string) (result : ConversionResult)
    : CallToolResult :=
  if success result then
    textResult
      (successLine tool ++ Converter.newline ++ "Output: "
         ++ interpolate (result_outputPath result))
      None
  else
    textResult ("Conversion failed: " ++ interpolate (error result))
      (Some true).

(** The kind of capture each listed tool makes: a screenshot for the PNG
    tool, [page.pdf] for the other two. *)
Definition capturesFor (tool : string) (ev : event) : Prop :=
  match ev with
  | EvScreenshot _ _ => tool = "convert_mermaid_to_png"
  | EvPdf _ _ => tool <> "convert_mermaid_to_png"
  | _ => False
  end.

(** What the handler answers: a missing-argument message, the outcome of a
    conversion, or the unknown-tool message. *)
Inductive answered (request : CallToolRequest) : CallToolResult -> Prop :=
| AnsweredMissing :
    answered request (missingArgumentResult (name request))
| AnsweredConverted (what : string) (r : ConversionResult) :
    Spec.wellFormed r -> answered request (respond what r)
| AnsweredUnknown :
    answered request
      (textResult ("Unknown tool: " ++ name request) (Some true)).

End Reading.

(* ================================================================== *)
(** * Drivers that fail

    Variants of a driver in which one collaborator answers differently. *)
(* ================================================================== *)

Module Scenario.
Import JS Effects.


(** [drv] with another answer to [puppeteer.launch]. *)
Definition withLaunch (drv : Driver)
    (answer : LaunchOptions -> History -> outcome Browser) : Driver :=
  {| fs_readFile := fs_readFile drv;
     marked_lexer := marked_lexer drv;
     puppeteer_launch := answer;
     browser_newPage := browser_newPage drv;
     page_setContent := page_setContent drv;
     page_waitForFunction := page_waitForFunction drv;
     page_pdf := page_pdf drv;
     page_query := page_query drv;
     element_screenshot := element_screenshot drv;
     browser_close := browser_close drv;
     document_at := document_at drv |}.

(** [drv] with another answer to [page.$]. *)
Definition withQuery (drv : Driver)
    (answer : Page -> string -> History -> outcome (option ElementHandle))
    : Driver :=
  {| fs_readFile := fs_readFile drv;
     marked_lexer := marked_lexer drv;
     puppeteer_launch := puppeteer_launch drv;
     browser_newPage := browser_newPage drv;
     page_setContent := page_setContent drv;
     page_waitForFunction := page_waitForFunction drv;
     page_pdf := page_pdf drv;
     page_query := answer;
     element_screenshot := element_screenshot drv;
     browser_close := browser_close drv;
     document_at := document_at drv |}.


Definition launchFailed : thrown :=
  ErrorObject "Failed to launch the browser process!".


(** No browser can be started. *)
Definition launchFails : Driver :=
  withLaunch Reference.plain (fun _ _ => Threw launchFailed).

(** A diagram block as the parser hands it to [renderer.code]. *)
Definition diagramBlock : Marked.Code :=
  {| Marked.text := "graph TD"; Marked.lang := Some "mermaid";
     Marked.escaped := None |}.

(** [drv] with another answer to [page.waitForFunction]. *)
Definition withWait (drv : Driver)
    (answer : Page -> Dom.pageFunction -> Z -> History -> outcome unit)
    : Driver :=
  {| fs_readFile := fs_readFile drv;
     marked_lexer := marked_lexer drv;
     puppeteer_launch := puppeteer_launch drv;
     browser_newPage := browser_newPage drv;
     page_setContent := page_setContent drv;
     page_waitForFunction := answer;
     page_pdf := page_pdf drv;
     page_query := page_query drv;
     element_screenshot := element_screenshot drv;
     browser_close := browser_close drv;
     document_at := document_at drv |}.

(** A driver whose page shows its diagram drawn from the start, and whose
    every wait comes back. *)
Definition instant : Driver :=
  withWait
    (Reference.driver "/x/doc.md" "# Title" [ Marked.CodeBlock diagramBlock ]
       (fun _ => Reference.drawnDiagram))
    (fun _ _ _ _ => Returned tt).

(** The diagram is drawn at once, but [page.$] finds no element. *)
Definition lostElement : Driver :=
  withQuery instant (fun _ _ _ => Returned None).

(** A page with two diagram containers, of which only the first is
    drawn. *)
Definition halfDrawn : Dom.node :=
  Dom.Element "html" []
    [ Dom.Element "body" []
        [ Dom.Element "div" ["mermaid"] [ Dom.Element "svg" [] [] ];
          Dom.Element "div" ["mermaid"] [ Dom.Text "graph TD" ] ] ].

(** Requests used as examples. *)
Definition markdownRequest (path : string) : Server.CallToolRequest :=
  {| Server.name := "convert_md_to_pdf";
     Server.arguments :=
       Some {| Server.input_path := Some path; Server.output_path := None;
               Server.custom_css := None; Server.mermaid_code := None |} |}.

Definition diagramArguments : Server.ToolArguments :=
  {| Server.input_path := None;
     Server.output_path := Some "/x/diagram.png";
     Server.custom_css := None;
     Server.mermaid_code := Some "graph TD" |}.

Definition diagramOptions : MermaidConversionOptions :=
  {| mermaidCode := "graph TD"; mermaid_outputPath := "/x/diagram.png" |}.

End Scenario.

(* ================================================================== *)
(** * Running an operation in a proof *)
(* ================================================================== *)

(** An operation is run by cases on the answers of the collaborators. *)
Ltac is_call x :=
  lazymatch x with
  | Effects.fs_readFile _ _ _ _ => idtac
  | Effects.marked_lexer _ _ => idtac
  | Effects.puppeteer_launch _ _ _ => idtac
  | Effects.browser_newPage _ _ _ => idtac
  | Effects.page_setContent _ _ _ _ _ => idtac
  | Effects.page_waitForFunction _ _ _ _ _ => idtac
  | Effects.page_pdf _ _ _ _ => idtac
  | Effects.page_query _ _ _ _ => idtac
  | Effects.element_screenshot _ _ _ _ => idtac
  | Effects.browser_close _ _ _ => idtac
  end.

Ltac reduce_run :=
  cbv beta iota zeta delta
    [Effects.tryCatch Effects.tryFinally Effects.bind Effects.ret
     Effects.throw Effects.perform Effects.pure_call Effects.acquiredBrowser
     Converter.readFile Converter.marked Converter.launch Converter.newPage
     Converter.setContent Converter.waitForFunction Converter.pdf
     Converter.query Converter.screenshot Converter.close].

Ltac answer_step :=
  match goal with
  | |- context [match ?x with
                | Effects.Returned _ => _
                | Effects.Threw _ => _
                end] =>
      is_call x; destruct x eqn:?
  | |- context [match ?v with Some _ => _ | None => _ end] =>
      is_var v; destruct v
  end.

Ltac run op := unfold op; reduce_run; repeat (answer_step; reduce_run).

(** The calls a finished run added to the history [h]. *)
Ltac added_to h l :=
  lazymatch l with
  | h => constr:(@nil Effects.event)
  | ?ev :: ?l' => let rest := added_to h l' in constr:(ev :: rest)
  end.

Ltac exhibit_run h :=
  lazymatch goal with
  | |- exists r added, (?o, ?l) = (r, (added ++ h)%list) /\ _ =>
      let a := added_to h l in
      exists o, a; split; [reflexivity | ]
  end.

(** A property of one kind of call among those added. *)
Ltac check_added :=
  simpl; intros;
  repeat match goal with
         | Hin : _ \/ _ |- _ => destruct Hin as [Hin | Hin]
         | Hin : _ = _ |- _ => discriminate Hin
         | Hin : False |- _ => contradiction
         end;
  match goal with
  | Hin : _ = _ |- _ => inversion Hin; subst; eexists; reflexivity
  end.

Ltac check_release := unfold Spec.releasesBrowser; check_added.

(* ================================================================== *)
(** * The code-block rule *)
(* ================================================================== *)

Section CodeRule.
Import JS Converter Spec.

(** The three replacements in a row amount to one pass over the text that
    rewrites each [&], [<] and [>] and keeps every other character. *)
Lemma escapeHTML_each (text : string) : escapeHTML text = escapeEach text.
Proof.
  unfold escapeHTML.
  induction text as [|c text IH]; [reflexivity|].
  simpl. unfold escapeCharacter.
  destruct (Ascii.eqb_spec c "&"%char) as [-> | Hamp].
  - simpl. now rewrite IH.
  - simpl. destruct (Ascii.eqb_spec c "<"%char) as [-> | Hlt].
    + simpl. now rewrite IH.
    + simpl. destruct (Ascii.eqb_spec c ">"%char) as [-> | Hgt].
      * simpl. now rewrite IH.
      * simpl. now rewrite IH.
Qed.

Lemma occurs_append (c : ascii) (a b : string) :
  occurs c (a ++ b) = occurs c a || occurs c b.
Proof.
  induction a as [|x a IH]; simpl; [reflexivity|].
  now rewrite IH, orb_assoc.
Qed.

(** No [<] and no [>] is left in an escaped text. *)
Lemma escapeHTML_no_angle (text : string) :
  occurs "<"%char (escapeHTML text) = false
  /\ occurs ">"%char (escapeHTML text) = false.
Proof.
  rewrite escapeHTML_each.
  induction text as [|c text [IHlt IHgt]]; [split; reflexivity|].
  simpl. rewrite !occurs_append, IHlt, IHgt, !orb_false_r.
  unfold escapeCharacter.
  destruct (Ascii.eqb_spec c "&"%char); [split; reflexivity|].
  destruct (Ascii.eqb_spec c "<"%char); [split; reflexivity|].
  destruct (Ascii.eqb_spec c ">"%char); [split; reflexivity|].
  simpl. rewrite !orb_false_r. split; apply Ascii.eqb_neq; assumption.
Qed.

(** An untagged fenced block reaches the rule with an empty tag and is
    emitted without a class attribute. *)
Lemma untagged_block_has_no_class (text : string) :
  renderer_code
    {| Marked.text := text; Marked.lang := Some ""; Marked.escaped := None |}
  = codeBlock "" (escapeHTML text).
Proof. reflexivity. Qed.

(** A block whose token is flagged [escaped] is emitted with its text as
    it is. *)
Lemma flagged_block_is_not_escaped_again (text tag : string) :
  tag <> "mermaid" ->
  renderer_code
    {| Marked.text := text; Marked.lang := Some tag;
       Marked.escaped := Some true |}
  = codeBlock (if truthy tag then languageClass tag else "") text.
Proof.
  intros Hother. unfold renderer_code; simpl.
  destruct (String.eqb_spec tag "mermaid"); [contradiction|].
  now destruct (truthy tag).
Qed.

(** C2, counterexample.  The rule as stated fails at the untagged block
    [x], emitted as [<pre><code>x</code></pre>] with no class attribute;
    restricted to tagged blocks it fails at the block [a<b] tagged [python]
    and flagged [escaped], whose body is emitted with its [<]. *)
Lemma code_rule_as_stated_fails :
  ~ codeRuleAsStated /\ ~ codeRuleForTaggedBlocks.
Proof.
  split; intros Hrule.
  - destruct (Hrule {| Marked.text := "x"; Marked.lang := Some "";
                       Marked.escaped := None |} "" eq_refl)
      as [_ Hother].
    specialize (Hother ltac:(discriminate)).
    vm_compute in Hother. discriminate Hother.
  - destruct (Hrule {| Marked.text := "a<b"; Marked.lang := Some "python";
                       Marked.escaped := Some true |} "python" eq_refl
                ltac:(discriminate))
      as [_ Hother].
    specialize (Hother ltac:(discriminate)).
    vm_compute in Hother. discriminate Hother.
Qed.

(** C2, amended.  A block tagged [mermaid] becomes the diagram container
    around its text, unescaped.  A block with any other, non-empty tag
    becomes a code block with class [language-<tag>]; its body is the text
    with [&], [<], [>] escaped, unless the token is flagged [escaped], in
    which case the text is emitted as it is.  A block whose tag is empty or
    absent gets no class attribute. *)
Theorem code_rule (token : Marked.Code) :
  (Marked.lang token = Some "mermaid" ->
   renderer_code token = mermaidContainer (Marked.text token))
  /\ (forall tag,
        Marked.lang token = Some tag -> tag <> "mermaid" -> tag <> "" ->
        renderer_code token
        = codeBlock (languageClass tag)
            (if truthy_flag (Marked.escaped token) then Marked.text token
             else escapeHTML (Marked.text token)))
  /\ (Marked.lang token = None \/ Marked.lang token = Some "" ->
      renderer_code token
      = codeBlock ""
          (if truthy_flag (Marked.escaped token) then Marked.text token
           else escapeHTML (Marked.text token)))
  /\ escapeHTML (Marked.text token) = escapeEach (Marked.text token)
  /\ occurs "<"%char (escapeHTML (Marked.text token)) = false
  /\ occurs ">"%char (escapeHTML (Marked.text token)) = false.
Proof.
  repeat split.
  - intros Hlang. unfold renderer_code. rewrite Hlang. reflexivity.
  - intros tag Hlang Hother Hgiven. unfold renderer_code. rewrite Hlang.
    simpl. unfold truthy.
    destruct (String.eqb_spec tag "mermaid"); [contradiction|].
    destruct (String.eqb_spec tag ""); [contradiction|].
    reflexivity.
  - intros [Hlang | Hlang]; unfold renderer_code; rewrite Hlang; reflexivity.
  - apply escapeHTML_each.
  - apply escapeHTML_no_angle.
  - apply escapeHTML_no_angle.
Qed.

(** The amended rule at a Python block and at a diagram block. *)
Lemma code_rule_witness :
  renderer_code
    {| Marked.text := "a<b"; Marked.lang := Some "python";
       Marked.escaped := None |}
  = codeBlock (languageClass "python") "a&lt;b"
  /\ renderer_code
       {| Marked.text := "A-->B"; Marked.lang := Some "mermaid";
          Marked.escaped := None |}
     = mermaidContainer "A-->B".
Proof.
  split.
  - exact (proj1 (proj2 (code_rule
             {| Marked.text := "a<b"; Marked.lang := Some "python";
                Marked.escaped := None |}))
             "python" eq_refl
             ltac:(discriminate) ltac:(discriminate)).
  - exact (proj1 (code_rule
             {| Marked.text := "A-->B"; Marked.lang := Some "mermaid";
                Marked.escaped := None |}) eq_refl).
Defined.

End CodeRule.

(* ================================================================== *)
(** * Facts about the path functions *)
(* ================================================================== *)

Section PathFacts.
Import Path Spec.
Local Open Scope list_scope.
#[local] Arguments normalize_chars : simpl never.

Lemma takeWhile_dropWhile {A} (f : A -> bool) (l : list A) :
  takeWhile f l ++ dropWhile f l = l.
Proof.
  induction l as [|x l IH]; simpl; [reflexivity|].
  destruct (f x); simpl; [now rewrite IH | reflexivity].
Qed.

Lemma dropWhile_head {A} (f : A -> bool) (l : list A) (x : A) (rest : list A) :
  dropWhile f l = x :: rest -> f x = false.
Proof.
  induction l as [|y l IH]; simpl; [discriminate|].
  destruct (f y) eqn:Hy; [exact IH|].
  intros Heq. injection Heq as -> _. exact Hy.
Qed.

Lemma takeWhile_all {A} (f : A -> bool) (l : list A) :
  forallb f (takeWhile f l) = true.
Proof.
  induction l as [|x l IH]; simpl; [reflexivity|].
  destruct (f x) eqn:Hx; simpl; [now rewrite Hx | reflexivity].
Qed.

Lemma takeWhile_length {A} (f : A -> bool) (l : list A) :
  length (takeWhile f l) <= length l.
Proof.
  induction l as [|x l IH]; simpl; [lia|].
  destruct (f x); simpl; lia.
Qed.

Lemma dropWhile_app {A} (f : A -> bool) (a b : list A) :
  dropWhile f (a ++ b)
  = match dropWhile f a with
    | [] => dropWhile f b
    | x :: rest => (x :: rest) ++ b
    end.
Proof.
  induction a as [|y a IH]; simpl; [reflexivity|].
  destruct (f y); [exact IH | reflexivity].
Qed.

Lemma chars_eqb_eq (a b : chars) : chars_eqb a b = true <-> a = b.
Proof.
  revert b. induction a as [|x a IH]; intros [|y b]; simpl;
    try (split; [discriminate | discriminate]); [tauto|].
  rewrite andb_true_iff, Ascii.eqb_eq, IH.
  split; [intros [-> ->]; reflexivity | intros Heq; injection Heq; auto].
Qed.

Lemma chars_eqb_length (a b : chars) :
  length a <> length b -> chars_eqb a b = false.
Proof.
  intros Hlen. destruct (chars_eqb a b) eqn:Heq; [|reflexivity].
  apply chars_eqb_eq in Heq. subst. contradiction.
Qed.

Lemma nonSlash_isSlash (c : ascii) : nonSlash c = false -> c = slash.
Proof.
  unfold nonSlash, isSlash. intros H. apply negb_false_iff in H.
  now apply Ascii.eqb_eq.
Qed.

Lemma nonDot_isDot (c : ascii) : nonDot c = false -> c = dot.
Proof.
  unfold nonDot, isDot. intros H. apply negb_false_iff in H.
  now apply Ascii.eqb_eq.
Qed.

(** A path that does not end with a separator has no trailing separators
    to skip. *)
Lemma no_trailing_separator (p : chars) :
  endsWithSlash p = false -> dropWhile isSlash (rev p) = rev p.
Proof.
  unfold endsWithSlash, startsWithSlash.
  destruct (rev p) as [|c r]; [reflexivity|].
  simpl. now intros ->.
Qed.

Lemma scanSuffix_app (suffix_rev before : chars) :
  scanSuffix (suffix_rev ++ before) suffix_rev = Matched before.
Proof.
  induction suffix_rev as [|s ss IH]; simpl; [now destruct before|].
  now rewrite Ascii.eqb_refl.
Qed.

(** The last component is its stem followed by its extension, where the
    stem is what [basename] returns when given the extension. *)
Lemma component_stem_extension (p : chars) :
  rev (lastComponentRev p)
  = basename_chars p (extname_chars p) ++ extname_chars p.
Proof.
  unfold extname_chars, basename_chars.
  set (comp := lastComponentRev p).
  assert (Hlen : length comp <= length p).
  { unfold comp, lastComponentRev.
    etransitivity; [apply takeWhile_length|].
    rewrite <- (length_rev p).
    rewrite <- (takeWhile_dropWhile isSlash (rev p)) at 2.
    rewrite length_app. lia. }
  destruct (dropWhile nonDot comp) as [|d [|x more]] eqn:Hdrop.
  - simpl. now rewrite app_nil_r.
  - simpl. now rewrite app_nil_r.
  - destruct (chars_eqb comp [dot; dot]) eqn:Hdots.
    + simpl. now rewrite app_nil_r.
    + pose proof (takeWhile_dropWhile nonDot comp) as Hsplit.
      rewrite Hdrop in Hsplit.
      assert (Hd : d = dot)
        by (apply nonDot_isDot; eapply dropWhile_head; eauto).
      subst d. clear Hdrop Hdots.
      remember (takeWhile nonDot comp) as tw eqn:Htw. clear Htw.
      clearbody comp. subst comp.
      rewrite length_app in Hlen. simpl in Hlen.
      assert (Hext_len : length (dot :: rev tw) = length tw + 1)
        by (simpl; rewrite length_rev; lia).
      rewrite Hext_len.
      replace (Nat.ltb 0 (length tw + 1)) with true
        by (symmetry; apply Nat.ltb_lt; lia).
      replace (Nat.leb (length tw + 1) (length p)) with true
        by (symmetry; apply Nat.leb_le; lia).
      simpl andb. cbv iota.
      rewrite chars_eqb_length by (rewrite Hext_len; lia).
      replace (rev (dot :: rev tw)) with (tw ++ [dot])
        by (simpl; now rewrite rev_involutive).
      replace (tw ++ dot :: x :: more) with ((tw ++ [dot]) ++ x :: more)
        by (now rewrite <- app_assoc).
      destruct ((tw ++ [dot]) ++ x :: more) as [|c cs] eqn:Hcons;
        [destruct tw; discriminate|].
      rewrite <- Hcons. rewrite scanSuffix_app.
      rewrite !rev_app_distr. simpl.
      rewrite <- !app_assoc. simpl. reflexivity.
Qed.

Lemma split_nonempty (q : chars) : split q <> [].
Proof.
  destruct q as [|c q]; simpl; [discriminate|].
  destruct (isSlash c); [discriminate|].
  destruct (split q); discriminate.
Qed.

Lemma split_app_slash (a b : chars) :
  split (a ++ slash :: b) = split a ++ split b.
Proof.
  induction a as [|c a IH]; simpl; [reflexivity|].
  destruct (isSlash c); [now rewrite IH|].
  rewrite IH. pose proof (split_nonempty a) as Hne.
  destruct (split a); [contradiction | reflexivity].
Qed.

Lemma endsWithSlash_app (a b : chars) :
  b <> [] -> endsWithSlash (a ++ b) = endsWithSlash b.
Proof.
  intros Hb. unfold endsWithSlash. rewrite rev_app_distr.
  destruct (rev b) as [|c r] eqn:Hrev; [|reflexivity].
  apply (f_equal (@rev ascii)) in Hrev. rewrite rev_involutive in Hrev.
  contradiction.
Qed.

(** [normalize] reads a path through its first and last characters and
    the segments that [normalizeString] keeps. *)
Lemma normalize_chars_congruence (q1 q2 : chars) :
  q1 <> [] -> q2 <> [] ->
  startsWithSlash q1 = startsWithSlash q2 ->
  endsWithSlash q1 = endsWithSlash q2 ->
  fold_left (normalizeStep (negb (startsWithSlash q1))) (split q1) []
  = fold_left (normalizeStep (negb (startsWithSlash q1))) (split q2) [] ->
  normalize_chars q1 = normalize_chars q2.
Proof.
  intros H1 H2 Hstart Hend Hfold.
  unfold normalize_chars, normalizeString.
  destruct q1 as [|c1 q1]; [contradiction|].
  destruct q2 as [|c2 q2]; [contradiction|].
  rewrite <- Hstart, <- Hend, <- Hfold. reflexivity.
Qed.

Lemma normalize_dot_prefix (path : chars) :
  path <> [] -> startsWithSlash path = false ->
  normalize_chars (dot :: slash :: path) = normalize_chars path.
Proof.
  intros Hne Hrel. apply normalize_chars_congruence.
  - discriminate.
  - exact Hne.
  - now rewrite Hrel.
  - apply (endsWithSlash_app [dot; slash]); assumption.
  - change (dot :: slash :: path) with ([dot] ++ slash :: path).
    rewrite split_app_slash. reflexivity.
Qed.

Lemma normalize_double_root (path : chars) :
  normalize_chars (slash :: slash :: path) = normalize_chars (slash :: path).
Proof.
  apply normalize_chars_congruence.
  - discriminate.
  - discriminate.
  - reflexivity.
  - destruct path as [|c path]; [reflexivity|].
    change (slash :: slash :: c :: path) with ([slash; slash] ++ c :: path).
    change (slash :: c :: path) with ([slash] ++ c :: path).
    rewrite !endsWithSlash_app; [reflexivity | discriminate | discriminate].
  - reflexivity.
Qed.

Lemma path_directory_component (p : chars) :
  endsWithSlash p = false ->
  p = directoryPart p ++ rev (lastComponentRev p).
Proof.
  intros Hend. unfold directoryPart, lastComponentRev.
  rewrite (no_trailing_separator p Hend).
  rewrite <- rev_app_distr, takeWhile_dropWhile. now rewrite rev_involutive.
Qed.

(** Joining the directory name with a file name gives the normal form of
    the directory part followed by that name. *)
Lemma join_dirname (p name : chars) :
  endsWithSlash p = false ->
  name <> [] -> startsWithSlash name = false ->
  join_chars (dirname_chars p) name
  = normalize_chars (directoryPart p ++ name).
Proof.
  intros Hend Hname Hrel. unfold directoryPart.
  destruct name as [|n name']; [contradiction|]. clear Hname.
  set (name := n :: name') in *.
  assert (Hne : name <> []) by discriminate.
  destruct p as [|c0 rest].
  - simpl. now apply normalize_dot_prefix.
  - unfold dirname_chars. simpl rev.
    destruct (rev rest) as [|l r] eqn:Hrev.
    + (* a single character, which is no separator *)
      unfold endsWithSlash in Hend. simpl in Hend. rewrite Hrev in Hend.
      simpl in Hend. simpl. unfold nonSlash. rewrite Hend. simpl.
      now apply normalize_dot_prefix.
    + assert (Hl : isSlash l = false).
      { unfold endsWithSlash in Hend. simpl in Hend. rewrite Hrev in Hend.
        exact Hend. }
      replace (dropWhile isSlash (l :: r)) with (l :: r)
        by (simpl; now rewrite Hl).
      rewrite dropWhile_app.
      destruct (dropWhile nonSlash (l :: r)) as [|s before] eqn:HX.
      * destruct (isSlash c0) eqn:Hc0.
        -- simpl. unfold nonSlash. rewrite Hc0. simpl.
           assert (c0 = slash) as -> by (now apply Ascii.eqb_eq).
           apply normalize_double_root.
        -- simpl. unfold nonSlash. rewrite Hc0. simpl.
           now apply normalize_dot_prefix.
      * assert (s = slash) as ->
          by (apply nonSlash_isSlash; eapply dropWhile_head; eauto).
        destruct (isSlash c0 && Nat.eqb (length before) 0) eqn:Hroot.
        -- apply andb_true_iff in Hroot. destruct Hroot as [Hc0 Hlen].
           assert (c0 = slash) as -> by (now apply Ascii.eqb_eq).
           destruct before; [|discriminate]. simpl.
           apply normalize_double_root.
        -- simpl. rewrite rev_app_distr. simpl.
           rewrite <- !app_assoc. reflexivity.
Qed.

Lemma firstn_all_but {A} (a b : list A) :
  firstn (length (a ++ b) - length b) (a ++ b) = a.
Proof.
  rewrite length_app.
  replace (length a + length b - length b) with (length a + 0) by lia.
  rewrite firstn_app_2. simpl. apply app_nil_r.
Qed.

Lemma forallb_rev {A} (f : A -> bool) (l : list A) :
  forallb f l = true -> forallb f (rev l) = true.
Proof.
  rewrite !forallb_forall. intros H x Hx. apply H. now apply in_rev.
Qed.

(** A file name made of a stem of the last component does not start with
    a separator. *)
Lemma stem_name_relative (p suffix : chars) :
  startsWithSlash suffix = false -> suffix <> [] ->
  startsWithSlash (basename_chars p (extname_chars p) ++ suffix) = false.
Proof.
  intros Hsuffix Hne.
  pose proof (component_stem_extension p) as Hcomp.
  assert (Hfile : forallb nonSlash (rev (lastComponentRev p)) = true)
    by (apply forallb_rev, takeWhile_all).
  rewrite Hcomp, forallb_app in Hfile. apply andb_true_iff in Hfile.
  destruct Hfile as [Hstem _].
  destruct (basename_chars p (extname_chars p)) as [|c stem];
    [exact Hsuffix|].
  simpl in *. apply andb_true_iff in Hstem. destruct Hstem as [Hc _].
  unfold nonSlash in Hc. now apply negb_true_iff in Hc.
Qed.

(** The path without its extension is its directory part followed by the
    stem of its last component. *)
Lemma path_without_extension (p : chars) :
  endsWithSlash p = false ->
  firstn (length p - length (extname_chars p)) p
  = directoryPart p ++ basename_chars p (extname_chars p).
Proof.
  intros Hend.
  rewrite (path_directory_component p Hend) at 1 3.
  rewrite component_stem_extension, app_assoc.
  apply firstn_all_but.
Qed.

Lemma default_output_chars (p suffix : chars) :
  endsWithSlash p = false ->
  startsWithSlash suffix = false -> suffix <> [] ->
  join_chars (dirname_chars p)
    (basename_chars p (extname_chars p) ++ suffix)
  = normalize_chars
      (firstn (length p - length (extname_chars p)) p ++ suffix).
Proof.
  intros Hend Hsuffix Hne.
  rewrite join_dirname; trivial.
  - now rewrite path_without_extension, app_assoc.
  - destruct (basename_chars p (extname_chars p)); [exact Hne | discriminate].
  - now apply stem_name_relative.
Qed.

Lemma list_ascii_of_string_append (a b : string) :
  list_ascii_of_string (a ++ b)%string
  = list_ascii_of_string a ++ list_ascii_of_string b.
Proof.
  induction a as [|c a IH]; simpl; [reflexivity | now rewrite IH].
Qed.

Lemma takeWhile_app_stop {A} (f : A -> bool) (a : list A) (x : A)
    (rest : list A) :
  forallb f a = true -> f x = false -> takeWhile f (a ++ x :: rest) = a.
Proof.
  intros Ha Hx. induction a as [|y a IH]; simpl in *; [now rewrite Hx|].
  apply andb_true_iff in Ha. destruct Ha as [Hy Ha].
  rewrite Hy. now rewrite IH.
Qed.

Lemma plainSegment_spec (seg : chars) :
  Spec.plainSegment seg = true ->
  seg <> [] /\ chars_eqb seg [] = false /\ chars_eqb seg [dot] = false
  /\ chars_eqb seg [dot; dot] = false /\ forallb nonSlash seg = true.
Proof.
  unfold Spec.plainSegment. rewrite !andb_true_iff, !negb_true_iff.
  intros [[[Hnil Hdot] Hdots] Hslash]. repeat split; trivial.
  intros ->. discriminate Hnil.
Qed.

Lemma split_plain (seg : chars) :
  forallb nonSlash seg = true -> split seg = [seg].
Proof.
  induction seg as [|c seg IH]; simpl; [reflexivity|].
  rewrite andb_true_iff. intros [Hc Hseg].
  unfold nonSlash in Hc. apply negb_true_iff in Hc.
  now rewrite Hc, IH.
Qed.

Lemma absolutePath_app (a b : list chars) :
  Spec.absolutePath (a ++ b) = Spec.absolutePath a ++ Spec.absolutePath b.
Proof.
  induction a as [|seg a IH]; simpl; [reflexivity|].
  now rewrite IH, app_assoc.
Qed.

Lemma split_absolute (seg : chars) (more : list chars) :
  forallb (forallb nonSlash) (seg :: more) = true ->
  split (Spec.absolutePath (seg :: more)) = [] :: seg :: more.
Proof.
  revert seg. induction more as [|next more IH]; intros seg Hplain.
  - simpl in *. rewrite app_nil_r. rewrite andb_true_r in Hplain.
    now rewrite split_plain.
  - change (forallb (forallb nonSlash) (seg :: next :: more))
      with (forallb nonSlash seg
            && forallb (forallb nonSlash) (next :: more)) in Hplain.
    apply andb_true_iff in Hplain. destruct Hplain as [Hseg Hmore].
    specialize (IH next Hmore).
    change (Spec.absolutePath (seg :: next :: more))
      with (slash :: seg ++ Spec.absolutePath (next :: more)).
    change (Spec.absolutePath (next :: more))
      with (slash :: next ++ Spec.absolutePath more) in *.
    simpl split at 1. rewrite split_app_slash, split_plain by exact Hseg.
    simpl in IH. injection IH as IH. now rewrite IH.
Qed.

Lemma normalizeStep_plain (allow : bool) (segs stack : list chars) :
  forallb Spec.plainSegment segs = true ->
  fold_left (normalizeStep allow) segs stack = rev segs ++ stack.
Proof.
  revert stack. induction segs as [|seg segs IH]; intros stack Hplain;
    [reflexivity|].
  simpl in Hplain. apply andb_true_iff in Hplain.
  destruct Hplain as [Hseg Hsegs].
  destruct (plainSegment_spec seg Hseg) as (_ & Hnil & Hdot & Hdots & _).
  simpl. unfold normalizeStep at 2. rewrite Hnil, Hdot, Hdots. simpl.
  rewrite IH by exact Hsegs. now rewrite <- app_assoc.
Qed.

Lemma absolutePath_unsplit (seg : chars) (more : list chars) :
  Spec.absolutePath (seg :: more) = slash :: unsplit (seg :: more).
Proof.
  revert seg. induction more as [|next more IH]; intros seg.
  - simpl. now rewrite app_nil_r.
  - change (Spec.absolutePath (seg :: next :: more))
      with (slash :: seg ++ Spec.absolutePath (next :: more)).
    rewrite IH. reflexivity.
Qed.

Lemma endsWithSlash_plain (seg : chars) :
  seg <> [] -> forallb nonSlash seg = true -> endsWithSlash seg = false.
Proof.
  intros Hne Hplain. unfold endsWithSlash.
  apply forallb_rev in Hplain.
  destruct (rev seg) as [|c r] eqn:Hrev.
  - apply (f_equal (@rev ascii)) in Hrev. rewrite rev_involutive in Hrev.
    contradiction.
  - simpl in *. apply andb_true_iff in Hplain. destruct Hplain as [Hc _].
    unfold nonSlash in Hc. now apply negb_true_iff in Hc.
Qed.

Lemma plain_segments_slash_free (segs : list chars) :
  forallb Spec.plainSegment segs = true ->
  forallb (forallb nonSlash) segs = true.
Proof.
  rewrite !forallb_forall. intros H seg Hin.
  now destruct (plainSegment_spec seg (H seg Hin)) as (_ & _ & _ & _ & Hs).
Qed.

Lemma endsWithSlash_absolute (segs : list chars) :
  segs <> [] -> forallb Spec.plainSegment segs = true ->
  endsWithSlash (Spec.absolutePath segs) = false.
Proof.
  intros Hne Hplain.
  destruct (exists_last Hne) as (init & last & ->).
  rewrite forallb_app in Hplain. apply andb_true_iff in Hplain.
  destruct Hplain as [_ Hlast]. simpl in Hlast.
  rewrite andb_true_r in Hlast.
  destruct (plainSegment_spec last Hlast) as (Hnil & _ & _ & _ & Hslash).
  rewrite absolutePath_app. simpl. rewrite app_nil_r.
  change (slash :: last) with ([slash] ++ last).
  rewrite app_assoc, endsWithSlash_app by exact Hnil.
  now apply endsWithSlash_plain.
Qed.

(** An absolute path made of plain segments is in normal form. *)
Lemma normalize_absolute (segs : list chars) :
  segs <> [] -> forallb Spec.plainSegment segs = true ->
  normalize_chars (Spec.absolutePath segs) = Spec.absolutePath segs.
Proof.
  intros Hne Hplain.
  pose proof (endsWithSlash_absolute segs Hne Hplain) as Hend.
  destruct segs as [|seg more]; [contradiction|].
  unfold normalize_chars, normalizeString.
  rewrite Hend.
  rewrite split_absolute by (now apply plain_segments_slash_free).
  rewrite absolutePath_unsplit.
  change (fold_left ?f ([] :: seg :: more) [])
    with (fold_left f (seg :: more) []).
  rewrite normalizeStep_plain by exact Hplain.
  rewrite app_nil_r, rev_involutive.
  simpl startsWithSlash. simpl negb.
  destruct (unsplit (seg :: more)) as [|c body] eqn:Hbody.
  - exfalso. simpl in Hplain. apply andb_true_iff in Hplain.
    destruct Hplain as [Hseg _].
    destruct (plainSegment_spec seg Hseg) as (Hnil & _).
    destruct seg; [contradiction|]. destruct more; discriminate Hbody.
  - simpl. now rewrite app_nil_r.
Qed.

Lemma lastComponent_absolute (init : list chars) (file : chars) :
  forallb Spec.plainSegment (init ++ [file]) = true ->
  lastComponentRev (Spec.absolutePath (init ++ [file])) = rev file.
Proof.
  intros Hplain.
  assert (Hend : endsWithSlash (Spec.absolutePath (init ++ [file])) = false)
    by (apply endsWithSlash_absolute; [now destruct init | exact Hplain]).
  unfold lastComponentRev. rewrite (no_trailing_separator _ Hend).
  rewrite forallb_app in Hplain. apply andb_true_iff in Hplain.
  destruct Hplain as [_ Hfile]. simpl in Hfile. rewrite andb_true_r in Hfile.
  destruct (plainSegment_spec file Hfile) as (_ & _ & _ & _ & Hslash).
  rewrite absolutePath_app. simpl. rewrite app_nil_r, rev_app_distr. simpl.
  rewrite <- app_assoc. simpl.
  apply takeWhile_app_stop; [now apply forallb_rev | reflexivity].
Qed.

(** Replacing the extension of an absolute path of plain segments gives
    an absolute path of plain segments. *)
Lemma replaced_absolute (init : list chars) (file suffix : chars) :
  let p := Spec.absolutePath (init ++ [file]) in
  forallb Spec.plainSegment (init ++ [file]) = true ->
  forallb nonSlash suffix = true -> 2 < length suffix ->
  exists stem,
    firstn (length p - length (extname_chars p)) p ++ suffix
    = Spec.absolutePath (init ++ [stem ++ suffix])
    /\ forallb Spec.plainSegment (init ++ [stem ++ suffix]) = true.
Proof.
  intros p Hplain Hsuffix Hlong.
  pose proof (component_stem_extension p) as Hcomp.
  unfold p in Hcomp at 1. rewrite lastComponent_absolute in Hcomp by exact Hplain.
  rewrite rev_involutive in Hcomp.
  set (stem := basename_chars p (extname_chars p)) in *.
  exists stem. split.
  - assert (Hp : p = (Spec.absolutePath init ++ slash :: stem)
                       ++ extname_chars p).
    { unfold p at 1. rewrite absolutePath_app. simpl. rewrite app_nil_r.
      rewrite Hcomp at 1. now rewrite <- app_assoc. }
    rewrite absolutePath_app. simpl. rewrite app_nil_r.
    clearbody stem. remember (extname_chars p) as ext eqn:Hext.
    clear Hext Hcomp. clearbody p. subst p.
    rewrite firstn_all_but, <- app_assoc. reflexivity.
  - rewrite forallb_app in *. apply andb_true_iff in Hplain.
    destruct Hplain as [Hinit Hfile]. rewrite Hinit. simpl in *.
    rewrite andb_true_r in *.
    destruct (plainSegment_spec file Hfile) as (_ & _ & _ & _ & Hslash).
    rewrite Hcomp, forallb_app in Hslash. apply andb_true_iff in Hslash.
    destruct Hslash as [Hstem _].
    unfold Spec.plainSegment.
    rewrite !chars_eqb_length by (rewrite length_app; simpl; lia).
    rewrite forallb_app, Hstem, Hsuffix. reflexivity.
Qed.

Lemma string_of_list_ascii_append (a b : chars) :
  string_of_list_ascii (a ++ b)
  = (string_of_list_ascii a ++ string_of_list_ascii b)%string.
Proof.
  induction a as [|c a IH]; simpl; [reflexivity | now rewrite IH].
Qed.

End PathFacts.

(* ================================================================== *)
(** * The output path derived from the input path *)
(* ================================================================== *)

Section DefaultOutputPath.
Import JS Converter Spec.

(** C3, counterexample.  [path.join] normalizes what it joins: for the
    input [/x//doc.md] the resolved path is [/x/doc.pdf], not
    [/x//doc.pdf]. *)
Lemma joined_path_is_normalized : ~ defaultPathAsStated.
Proof.
  intros Hstated. specialize (Hstated "/x//doc.md" None).
  vm_compute in Hstated. discriminate Hstated.
Qed.

Lemma resolveOutputPath_default (input : string) (css : option string) :
  Spec.namesFile input = true ->
  resolveOutputPath
    {| inputPath := input; outputPath := None; customCSS := css |}
  = Path.normalize (Spec.replaceExtension input ".pdf").
Proof.
  intros Hfile. unfold Spec.namesFile in Hfile.
  apply negb_true_iff in Hfile.
  unfold resolveOutputPath, Spec.replaceExtension; simpl.
  unfold Path.join, Path.dirname, Path.basename, Path.extname,
    Path.normalize, Path.lift1.
  rewrite !list_ascii_of_string_append, !list_ascii_of_string_of_list_ascii.
  f_equal. apply default_output_chars; [exact Hfile | reflexivity | discriminate].
Qed.

Lemma resolveOutputPath_plain (segs : list Path.chars)
    (css : option string) :
  segs <> [] -> forallb Spec.plainSegment segs = true ->
  resolveOutputPath
    {| inputPath := string_of_list_ascii (Spec.absolutePath segs);
       outputPath := None; customCSS := css |}
  = Spec.replaceExtension (string_of_list_ascii (Spec.absolutePath segs))
      ".pdf".
Proof.
  intros Hne Hplain.
  rewrite resolveOutputPath_default.
  - unfold Path.normalize, Path.lift1, Spec.replaceExtension.
    rewrite list_ascii_of_string_append, !list_ascii_of_string_of_list_ascii.
    destruct (exists_last Hne) as (init & file & ->).
    destruct (replaced_absolute init file (list_ascii_of_string ".pdf")
                Hplain eq_refl ltac:(simpl; lia))
      as (stem & Hreplaced & Hstill).
    rewrite Hreplaced, normalize_absolute;
      [| now destruct init | exact Hstill].
    rewrite <- Hreplaced, string_of_list_ascii_append. reflexivity.
  - unfold Spec.namesFile. rewrite list_ascii_of_string_of_list_ascii.
    now rewrite endsWithSlash_absolute.
Qed.

(** C3, amended.  With no output path given, the resolved path is the
    normal form ([path.normalize]) of the input path with its extension
    replaced by [.pdf]; for an absolute input path of plain segments (none
    empty, [.] or [..]), such as [/x/doc.md], it is the input path itself
    with its extension replaced. *)
Theorem default_output_path (input : string) (css : option string) :
  (Spec.namesFile input = true ->
   resolveOutputPath
     {| inputPath := input; outputPath := None; customCSS := css |}
   = Path.normalize (Spec.replaceExtension input ".pdf"))
  /\ (forall segs,
        segs <> [] -> forallb Spec.plainSegment segs = true ->
        input = string_of_list_ascii (Spec.absolutePath segs) ->
        resolveOutputPath
          {| inputPath := input; outputPath := None; customCSS := css |}
        = Spec.replaceExtension input ".pdf").
Proof.
  split.
  - apply resolveOutputPath_default.
  - intros segs Hne Hplain ->. now apply resolveOutputPath_plain.
Qed.

(** C3 at the specification's example, [/x/doc.md]. *)
Lemma default_output_path_witness :
  resolveOutputPath
    {| inputPath := "/x/doc.md"; outputPath := None; customCSS := None |}
  = "/x/doc.pdf".
Proof.
  exact (proj2 (default_output_path "/x/doc.md" None)
           [list_ascii_of_string "x"; list_ascii_of_string "doc.md"]
           ltac:(discriminate) eq_refl eq_refl).
Defined.

End DefaultOutputPath.

(* ================================================================== *)
(** * The assembled document *)
(* ================================================================== *)

Section Document.
Import JS Effects Converter Spec.

Lemma or_else_nothing (s : string) : or_else (Some s) EmptyString = s.
Proof.
  unfold or_else, truthy.
  destruct (String.eqb_spec s EmptyString) as [-> | _]; reflexivity.
Qed.

Lemma createHTMLDocument_custom (bodyHTML css : string) :
  createHTMLDocument bodyHTML (Some css)
  = fullDocumentOpening ++ DEFAULT_CSS ++ styleSeparator ++ css
      ++ fullDocumentClosing bodyHTML.
Proof.
  unfold createHTMLDocument. rewrite or_else_nothing. reflexivity.
Qed.

Lemma convertMarkdownToPDF_loads (drv : Driver) (options : ConversionOptions)
    (h : History) :
  exists r added,
    convertMarkdownToPDF drv options h = (r, (added ++ h)%list)
    /\ forall page html waitUntil,
         In (EvSetContent page html waitUntil) added ->
         exists bodyHTML,
           html = createHTMLDocument bodyHTML (customCSS options).
Proof.
  run convertMarkdownToPDF; exhibit_run h; check_added.
Qed.

(** C8.  With custom CSS supplied, the style section of the document that
    [convertMarkdownToPDF] assembles and loads in the page holds the whole
    of [DEFAULT_CSS], then the supplied text exactly as given: nothing of
    the default rules is dropped and the supplied text is not inspected. *)
Theorem custom_css_follows_default_css :
  (forall bodyHTML css,
      createHTMLDocument bodyHTML (Some css)
      = fullDocumentOpening ++ DEFAULT_CSS ++ styleSeparator ++ css
          ++ fullDocumentClosing bodyHTML)
  /\ (exists head, fullDocumentOpening = head ++ "<style>" ++ styleSeparator)
  /\ (forall drv options h, exists r added,
        convertMarkdownToPDF drv options h = (r, (added ++ h)%list)
        /\ forall page html waitUntil,
             In (EvSetContent page html waitUntil) added ->
             exists bodyHTML,
               html = createHTMLDocument bodyHTML (customCSS options)).
Proof.
  split; [|split].
  - apply createHTMLDocument_custom.
  - eexists (substring 0 (String.length fullDocumentOpening - 12)
               fullDocumentOpening).
    vm_compute. reflexivity.
  - apply convertMarkdownToPDF_loads.
Qed.

End Document.

(* ================================================================== *)
(** * What the readiness waits poll *)
(* ================================================================== *)

Section Readiness.
Import JS Effects Converter.




(** A document with a diagram container and no vector graphic below any
    container satisfies neither readiness function. *)
Lemma undrawn_not_ready (document : Dom.node) :
  (exists el,
      In el (Dom.querySelectorAll_class "mermaid" document)
      /\ forall el',
           In el' (Dom.querySelectorAll_class "mermaid" document) ->
           Dom.querySelector_tag "svg" el' = None) ->
  Dom.mermaidElementsRendered document = false
  /\ Dom.mermaidElementRendered document = false.
Proof.
  intros (el & Hel & Hnone). split.
  - unfold Dom.mermaidElementsRendered.
    destruct (Dom.querySelectorAll_class "mermaid" document) as [|x l] eqn:Hl;
      [contradiction|].
    simpl Nat.eqb. cbv iota.
    destruct (forallb _ (x :: l)) eqn:Hall; [|reflexivity].
    rewrite forallb_forall in Hall. specialize (Hall el Hel).
    rewrite (Hnone el Hel) in Hall. discriminate Hall.
  - unfold Dom.mermaidElementRendered, Dom.querySelector_class.
    destruct (find _ _) as [first|] eqn:Hfind; [|reflexivity].
    apply find_some in Hfind. destruct Hfind as [Hin Hclass].
    rewrite Hnone; [reflexivity|].
    unfold Dom.querySelectorAll_class. apply filter_In. now split.
Qed.

(** Each of the two texts is worth the function it spells out. *)
Lemma source_values :
  Dom.readExpression Dom.AllMermaidElementsRendered
  = Some (Dom.FunctionObject Dom.mermaidElementsRendered)
  /\ Dom.readExpression Dom.MermaidElementRendered
     = Some (Dom.FunctionObject Dom.mermaidElementRendered).
Proof.
  split; reflexivity.
Qed.

(** So a wait on either text comes back at once, whatever the page
    shows. *)
Lemma wait_returns_at_once (drv : Driver) (page : Page) (timeout : Z)
    (h : History) :
  Spec.waitsForExpression drv ->
  page_waitForFunction drv page Dom.AllMermaidElementsRendered timeout h
  = Returned tt
  /\ page_waitForFunction drv page Dom.MermaidElementRendered timeout h
     = Returned tt.
Proof.
  intros Hwait. destruct source_values as [Hall Hone].
  split; eapply Hwait; eauto.
Qed.

Lemma reference_waitsForExpression (file content : string)
    (tokens : list Marked.Token) (timeline : Z -> Dom.node) :
  Spec.waitsForExpression (Reference.driver file content tokens timeline).
Proof.
  intros page source v timeout h Hvalue Htruthy. simpl.
  unfold Reference.waitOn. now rewrite Hvalue, Htruthy.
Qed.

(** The Markdown conversion once its document is loaded: the wait comes
    back and the next call is the capture, [page.pdf], followed by the
    release of the browser. *)
Lemma loaded_document_is_captured (drv : Driver) (options : ConversionOptions)
    (h : History) (content : string) (tokens : list Marked.Token)
    (b : Browser) (page : Page) :
  let h1 := EvReadFile (inputPath options) "utf-8" :: h in
  let h2 := EvLaunch launchOptions (Some b) :: h1 in
  let h3 := EvNewPage b :: h2 in
  let html :=
    createHTMLDocument (Marked.parse renderer_code tokens)
      (customCSS options) in
  let h4 := EvSetContent page html "networkidle0" :: h3 in
  let capture :=
    {| pdf_path := resolveOutputPath options; format := "A4";
       margin := margins "20mm"; printBackground := true |} in
  let waited :=
    EvWaitForFunction page Dom.AllMermaidElementsRendered renderTimeout
    :: h4 in
  Spec.waitsForExpression drv ->
  fs_readFile drv (inputPath options) "utf-8" h = Returned content ->
  marked_lexer drv content = Returned tokens ->
  puppeteer_launch drv launchOptions h1 = Returned b ->
  browser_newPage drv b h2 = Returned page ->
  page_setContent drv page html "networkidle0" h3 = Returned tt ->
  page_waitForFunction drv page Dom.AllMermaidElementsRendered
    renderTimeout h4
  = Returned tt
  /\ exists r,
       convertMarkdownToPDF drv options h
       = (r, EvClose b :: EvPdf page capture :: waited)
       /\ (page_pdf drv page capture waited = Returned tt ->
           browser_close drv b (EvPdf page capture :: waited)
           = Returned tt ->
           r = Returned (succeeded (resolveOutputPath options))).
Proof.
  intros h1 h2 h3 html h4 capture waited Hwait Hread Hlex Hlaunch Hpage Hset.
  destruct (wait_returns_at_once drv page renderTimeout h4 Hwait)
    as [Hready _].
  split; [exact Hready|].
  unfold convertMarkdownToPDF. reduce_run.
  rewrite Hread. reduce_run. rewrite Hlex. reduce_run.
  fold h1. rewrite Hlaunch. reduce_run.
  fold h2. rewrite Hpage. reduce_run.
  fold html. fold h3. rewrite Hset. reduce_run.
  fold h4. rewrite Hready. reduce_run.
  fold capture. fold waited.
  destruct (page_pdf drv page capture waited) as [[]|e1];
    destruct (browser_close drv b (EvPdf page capture :: waited))
      as [[]|e2];
    eexists; (split; [reflexivity|]); intros Hpdf Hclose;
    try discriminate Hpdf; try discriminate Hclose; reflexivity.
Qed.

(** The same for the diagram converted to PDF. *)
Lemma loaded_diagram_is_captured (drv : Driver)
    (options : MermaidConversionOptions) (h : History)
    (b : Browser) (page : Page) :
  let h1 := EvLaunch launchOptions (Some b) :: h in
  let h2 := EvNewPage b :: h1 in
  let html := createMermaidOnlyHTML (mermaidCode options) in
  let h3 := EvSetContent page html "networkidle0" :: h2 in
  let capture :=
    {| pdf_path := mermaid_outputPath options; format := "A4";
       margin := margins "10mm"; printBackground := true |} in
  let waited :=
    EvWaitForFunction page Dom.MermaidElementRendered renderTimeout :: h3 in
  Spec.waitsForExpression drv ->
  puppeteer_launch drv launchOptions h = Returned b ->
  browser_newPage drv b h1 = Returned page ->
  page_setContent drv page html "networkidle0" h2 = Returned tt ->
  page_waitForFunction drv page Dom.MermaidElementRendered renderTimeout h3
  = Returned tt
  /\ exists r,
       convertMermaidToPDF drv options h
       = (r, EvClose b :: EvPdf page capture :: waited)
       /\ (page_pdf drv page capture waited = Returned tt ->
           browser_close drv b (EvPdf page capture :: waited)
           = Returned tt ->
           r = Returned (succeeded (mermaid_outputPath options))).
Proof.
  intros h1 h2 html h3 capture waited Hwait Hlaunch Hpage Hset.
  destruct (wait_returns_at_once drv page renderTimeout h3 Hwait)
    as [_ Hready].
  split; [exact Hready|].
  unfold convertMermaidToPDF. reduce_run.
  rewrite Hlaunch. reduce_run.
  fold h1. rewrite Hpage. reduce_run.
  fold html. fold h2. rewrite Hset. reduce_run.
  fold h3. rewrite Hready. reduce_run.
  fold capture. fold waited.
  destruct (page_pdf drv page capture waited) as [[]|e1];
    destruct (browser_close drv b (EvPdf page capture :: waited))
      as [[]|e2];
    eexists; (split; [reflexivity|]); intros Hpdf Hclose;
    try discriminate Hpdf; try discriminate Hclose; reflexivity.
Qed.

(** And for the diagram converted to PNG: the wait comes back and the
    next call asks the page for the drawn element. *)
Lemma loaded_diagram_is_queried (drv : Driver)
    (options : MermaidConversionOptions) (h : History)
    (b : Browser) (page : Page) :
  let h1 := EvLaunch launchOptions (Some b) :: h in
  let h2 := EvNewPage b :: h1 in
  let html := createMermaidOnlyHTML (mermaidCode options) in
  let h3 := EvSetContent page html "networkidle0" :: h2 in
  let waited :=
    EvWaitForFunction page Dom.MermaidElementRendered renderTimeout :: h3 in
  Spec.waitsForExpression drv ->
  puppeteer_launch drv launchOptions h = Returned b ->
  browser_newPage drv b h1 = Returned page ->
  page_setContent drv page html "networkidle0" h2 = Returned tt ->
  page_waitForFunction drv page Dom.MermaidElementRendered renderTimeout h3
  = Returned tt
  /\ exists r later,
       convertMermaidToPNG drv options h
       = (r, (later ++ EvQuery page ".mermaid svg" :: waited)%list).
Proof.
  intros h1 h2 html h3 waited Hwait Hlaunch Hpage Hset.
  destruct (wait_returns_at_once drv page renderTimeout h3 Hwait)
    as [_ Hready].
  split; [exact Hready|].
  unfold convertMermaidToPNG. reduce_run.
  rewrite Hlaunch. reduce_run.
  fold h1. rewrite Hpage. reduce_run.
  fold html. fold h2. rewrite Hset. reduce_run.
  fold h3. rewrite Hready. reduce_run.
  fold waited.
  repeat (answer_step; reduce_run);
    lazymatch goal with
    | |- exists r later, (?o, ?l) = _ =>
        let a := added_to (EvQuery page ".mermaid svg" :: waited) l in
        exists o, a; reflexivity
    end.
Qed.



End Readiness.

(* ================================================================== *)
(** * Results of the conversion operations *)
(* ================================================================== *)

Section OperationBoundary.
Import JS Effects Converter.

Variable drv : Driver.

Lemma succeeded_wellFormed (path : string) : Spec.wellFormed (succeeded path).
Proof.
  unfold Spec.wellFormed, succeeded; simpl.
  repeat split; intros; congruence.
Qed.

Lemma failed_wellFormed (e : thrown) : Spec.wellFormed (failed e).
Proof.
  unfold Spec.wellFormed, failed; simpl.
  repeat split; intros; congruence.
Qed.

Lemma convertMarkdownToPDF_returns (options : ConversionOptions) (h : History) :
  exists r h',
    convertMarkdownToPDF drv options h = (Returned r, h') /\ Spec.wellFormed r.
Proof.
  run convertMarkdownToPDF;
    eauto using succeeded_wellFormed, failed_wellFormed.
Qed.

Lemma convertMermaidToPNG_returns (options : MermaidConversionOptions)
    (h : History) :
  exists r h',
    convertMermaidToPNG drv options h = (Returned r, h') /\ Spec.wellFormed r.
Proof.
  run convertMermaidToPNG;
    eauto using succeeded_wellFormed, failed_wellFormed.
Qed.

Lemma convertMermaidToPDF_returns (options : MermaidConversionOptions)
    (h : History) :
  exists r h',
    convertMermaidToPDF drv options h = (Returned r, h') /\ Spec.wellFormed r.
Proof.
  run convertMermaidToPDF;
    eauto using succeeded_wellFormed, failed_wellFormed.
Qed.

(** C1.  Each of the three conversion operations returns normally, whatever
    the file system, the Markdown parser and the browser answer or throw,
    and its result has [outputPath] exactly when [success] is true and
    [error] exactly when [success] is false. *)
Theorem operations_return_well_formed_results (h : History) :
  (forall options, exists r h',
      convertMarkdownToPDF drv options h = (Returned r, h')
      /\ Spec.wellFormed r)
  /\ (forall options, exists r h',
        convertMermaidToPNG drv options h = (Returned r, h')
        /\ Spec.wellFormed r)
  /\ (forall options, exists r h',
        convertMermaidToPDF drv options h = (Returned r, h')
        /\ Spec.wellFormed r).
Proof.
  split; [|split]; intros options.
  - apply convertMarkdownToPDF_returns.
  - apply convertMermaidToPNG_returns.
  - apply convertMermaidToPDF_returns.
Qed.

(** What [launch] answered in a run is what the run recorded. *)
Ltac check_recorded :=
  simpl; intros;
  repeat match goal with
         | Hcase : ?call = _, Hgiven : ?call = _ |- _ =>
             rewrite Hcase in Hgiven
         | Hgiven : Threw _ = Returned _ |- _ => discriminate Hgiven
         | Hgiven : Returned _ = Returned _ |- _ =>
             inversion Hgiven; clear Hgiven; subst
         end;
  auto 10.

Lemma convertMarkdownToPDF_releases (options : ConversionOptions)
    (h : History) :
  exists r added,
    convertMarkdownToPDF drv options h = (r, (added ++ h)%list)
    /\ Spec.releasesBrowser added
    /\ forall content tokens b,
         fs_readFile drv (inputPath options) "utf-8" h = Returned content ->
         marked_lexer drv content = Returned tokens ->
         puppeteer_launch drv launchOptions
           (EvReadFile (inputPath options) "utf-8" :: h)
         = Returned b ->
         In (EvLaunch launchOptions (Some b)) added.
Proof.
  run convertMarkdownToPDF; exhibit_run h;
    (split; [check_release | check_recorded]).
Qed.

Lemma convertMermaidToPNG_releases (options : MermaidConversionOptions)
    (h : History) :
  exists r added,
    convertMermaidToPNG drv options h = (r, (added ++ h)%list)
    /\ Spec.releasesBrowser added
    /\ forall b,
         puppeteer_launch drv launchOptions h = Returned b ->
         In (EvLaunch launchOptions (Some b)) added.
Proof.
  run convertMermaidToPNG; exhibit_run h;
    (split; [check_release | check_recorded]).
Qed.

Lemma convertMermaidToPDF_releases (options : MermaidConversionOptions)
    (h : History) :
  exists r added,
    convertMermaidToPDF drv options h = (r, (added ++ h)%list)
    /\ Spec.releasesBrowser added
    /\ forall b,
         puppeteer_launch drv launchOptions h = Returned b ->
         In (EvLaunch launchOptions (Some b)) added.
Proof.
  run convertMermaidToPDF; exhibit_run h;
    (split; [check_release | check_recorded]).
Qed.

(** C7.  In every run of the three operations, the browser that
    [puppeteer.launch] handed out is on record, and the last call the
    operation makes before it returns is [close] on that browser -- whether
    the page calls in between returned or threw. *)
Theorem acquired_browser_is_closed (h : History) :
  (forall options, exists r added,
      convertMarkdownToPDF drv options h = (r, (added ++ h)%list)
      /\ Spec.releasesBrowser added
      /\ forall content tokens b,
           fs_readFile drv (inputPath options) "utf-8" h = Returned content ->
           marked_lexer drv content = Returned tokens ->
           puppeteer_launch drv launchOptions
             (EvReadFile (inputPath options) "utf-8" :: h)
           = Returned b ->
           In (EvLaunch launchOptions (Some b)) added)
  /\ (forall options, exists r added,
        convertMermaidToPNG drv options h = (r, (added ++ h)%list)
        /\ Spec.releasesBrowser added
        /\ forall b,
             puppeteer_launch drv launchOptions h = Returned b ->
             In (EvLaunch launchOptions (Some b)) added)
  /\ (forall options, exists r added,
        convertMermaidToPDF drv options h = (r, (added ++ h)%list)
        /\ Spec.releasesBrowser added
        /\ forall b,
             puppeteer_launch drv launchOptions h = Returned b ->
             In (EvLaunch launchOptions (Some b)) added).
Proof.
  split; [|split]; intros options.
  - apply convertMarkdownToPDF_releases.
  - apply convertMermaidToPNG_releases.
  - apply convertMermaidToPDF_releases.
Qed.

End OperationBoundary.



(* ================================================================== *)
(** * A diagram that is never drawn *)
(* ================================================================== *)

Section Deadline.
Import JS Effects Converter.

Lemma stuck_never_draws (page : Page) (h : History) :
  Spec.neverDrawn Reference.stuck page h.
Proof.
  intros t _. simpl. eexists. split.
  - left. reflexivity.
  - intros el' [<- | []]. reflexivity.
Qed.

(** C6.  Each operation gives its wait the deadline 30000, but hands it
    the text of the readiness function, which is truthy as it stands: on
    a page whose diagram is never drawn, both readiness functions are
    false at every moment and the wait still comes back at once.
    [convertMarkdownToPDF] and [convertMermaidToPDF] then capture the page
    and, when the capture and the closing return, report success;
    [convertMermaidToPNG] goes on to ask the page for the drawn element. *)
Theorem unrendered_diagram_is_captured (drv : Driver) (h : History) :
  Spec.waitsForExpression drv ->
  (forall options content tokens b page,
      let h1 := EvReadFile (inputPath options) "utf-8" :: h in
      let h2 := EvLaunch launchOptions (Some b) :: h1 in
      let h3 := EvNewPage b :: h2 in
      let html :=
        createHTMLDocument (Marked.parse renderer_code tokens)
          (customCSS options) in
      let h4 := EvSetContent page html "networkidle0" :: h3 in
      let capture :=
        {| pdf_path := resolveOutputPath options; format := "A4";
           margin := margins "20mm"; printBackground := true |} in
      let waited :=
        EvWaitForFunction page Dom.AllMermaidElementsRendered renderTimeout
        :: h4 in
      fs_readFile drv (inputPath options) "utf-8" h = Returned content ->
      marked_lexer drv content = Returned tokens ->
      puppeteer_launch drv launchOptions h1 = Returned b ->
      browser_newPage drv b h2 = Returned page ->
      page_setContent drv page html "networkidle0" h3 = Returned tt ->
      Spec.neverDrawn drv page h4 ->
      (forall t, (0 <= t)%Z ->
         Dom.mermaidElementsRendered (document_at drv page h4 t) = false)
      /\ page_waitForFunction drv page Dom.AllMermaidElementsRendered
           renderTimeout h4
         = Returned tt
      /\ exists r,
           convertMarkdownToPDF drv options h
           = (r, EvClose b :: EvPdf page capture :: waited)
           /\ (page_pdf drv page capture waited = Returned tt ->
               browser_close drv b (EvPdf page capture :: waited)
               = Returned tt ->
               r = Returned (succeeded (resolveOutputPath options))))
  /\ (forall options b page,
        let h1 := EvLaunch launchOptions (Some b) :: h in
        let h2 := EvNewPage b :: h1 in
        let html := createMermaidOnlyHTML (mermaidCode options) in
        let h3 := EvSetContent page html "networkidle0" :: h2 in
        let capture :=
          {| pdf_path := mermaid_outputPath options; format := "A4";
             margin := margins "10mm"; printBackground := true |} in
        let waited :=
          EvWaitForFunction page Dom.MermaidElementRendered renderTimeout
          :: h3 in
        puppeteer_launch drv launchOptions h = Returned b ->
        browser_newPage drv b h1 = Returned page ->
        page_setContent drv page html "networkidle0" h2 = Returned tt ->
        Spec.neverDrawn drv page h3 ->
        (forall t, (0 <= t)%Z ->
           Dom.mermaidElementRendered (document_at drv page h3 t) = false)
        /\ page_waitForFunction drv page Dom.MermaidElementRendered
             renderTimeout h3
           = Returned tt
        /\ exists r,
             convertMermaidToPDF drv options h
             = (r, EvClose b :: EvPdf page capture :: waited)
             /\ (page_pdf drv page capture waited = Returned tt ->
                 browser_close drv b (EvPdf page capture :: waited)
                 = Returned tt ->
                 r = Returned (succeeded (mermaid_outputPath options))))
  /\ (forall options b page,
        let h1 := EvLaunch launchOptions (Some b) :: h in
        let h2 := EvNewPage b :: h1 in
        let html := createMermaidOnlyHTML (mermaidCode options) in
        let h3 := EvSetContent page html "networkidle0" :: h2 in
        let waited :=
          EvWaitForFunction page Dom.MermaidElementRendered renderTimeout
          :: h3 in
        puppeteer_launch drv launchOptions h = Returned b ->
        browser_newPage drv b h1 = Returned page ->
        page_setContent drv page html "networkidle0" h2 = Returned tt ->
        Spec.neverDrawn drv page h3 ->
        (forall t, (0 <= t)%Z ->
           Dom.mermaidElementRendered (document_at drv page h3 t) = false)
        /\ page_waitForFunction drv page Dom.MermaidElementRendered
             renderTimeout h3
           = Returned tt
        /\ exists r later,
             convertMermaidToPNG drv options h
             = (r, (later ++ EvQuery page ".mermaid svg" :: waited)%list)).
Proof.
  intros Hwait. split; [|split].
  - intros options content tokens b page h1 h2 h3 html h4 capture waited
      Hread Hlex Hlaunch Hpage Hset Hnever.
    split; [intros t Ht; now apply undrawn_not_ready, Hnever|].
    now apply (loaded_document_is_captured drv options h content tokens).
  - intros options b page h1 h2 html h3 capture waited
      Hlaunch Hpage Hset Hnever.
    split; [intros t Ht; now apply undrawn_not_ready, Hnever|].
    now apply loaded_diagram_is_captured.
  - intros options b page h1 h2 html h3 waited Hlaunch Hpage Hset Hnever.
    split; [intros t Ht; now apply undrawn_not_ready, Hnever|].
    now apply loaded_diagram_is_queried.
Qed.

(** C6 on the page whose diagram is never drawn: [convertMermaidToPDF]
    captures it and reports success. *)
Lemma unrendered_diagram_is_captured_witness :
  Spec.neverDrawn Reference.stuck 1
    [ EvSetContent 1 (createMermaidOnlyHTML "graph TD") "networkidle0";
      EvNewPage 1; EvLaunch launchOptions (Some 1) ]
  /\ convertMermaidToPDF Reference.stuck
       {| mermaidCode := "graph TD"; mermaid_outputPath := "/x/diagram.pdf" |}
       []
     = (Returned (succeeded "/x/diagram.pdf"),
        [ EvClose 1;
          EvPdf 1 {| pdf_path := "/x/diagram.pdf"; format := "A4";
                     margin := margins "10mm"; printBackground := true |};
          EvWaitForFunction 1 Dom.MermaidElementRendered renderTimeout;
          EvSetContent 1 (createMermaidOnlyHTML "graph TD") "networkidle0";
          EvNewPage 1;
          EvLaunch launchOptions (Some 1) ]).
Proof.
  split; [apply stuck_never_draws|].
  destruct (proj1 (proj2
              (unrendered_diagram_is_captured Reference.stuck []
                 (reference_waitsForExpression _ _ _ _)))
              {| mermaidCode := "graph TD";
                 mermaid_outputPath := "/x/diagram.pdf" |}
              1 1 eq_refl eq_refl eq_refl (stuck_never_draws _ _))
    as (_ & _ & r & Hrun & Hresult).
  rewrite (Hresult eq_refl eq_refl) in Hrun. exact Hrun.
Defined.

End Deadline.

(* ================================================================== *)
(** * The tool front-end *)
(* ================================================================== *)

Section FrontEnd.
Import JS Effects Server.

Variable drv : Driver.

Lemma falsy_member_rejected (tool : Tool) (key : string)
    (args : ToolArguments) (h : History) :
  In tool tools ->
  In key (required tool) ->
  truthy_opt (member args key) = false ->
  callTool drv {| name := tool_name tool; arguments := Some args |} h
  = (Returned (missingArgumentResult (tool_name tool)), h).
Proof.
  intros Htool Hkey Hfalsy.
  unfold tools in Htool; simpl in Htool.
  destruct Htool as [<- | [<- | [<- | []]]]; simpl in Hkey;
    repeat (destruct Hkey as [<- | Hkey]; try contradiction);
    unfold member in Hfalsy; simpl in Hfalsy;
    unfold callTool, missingArgumentResult, missingArgumentMessage; simpl;
    rewrite Hfalsy; simpl; rewrite ?orb_true_r; reflexivity.
Qed.

(** The handler's answer when the request carries no [arguments] object:
    reading the first required member throws. *)
Lemma callTool_without_arguments (tool : Tool) (h : History) :
  In tool tools ->
  exists key,
    In key (required tool)
    /\ callTool drv {| name := tool_name tool; arguments := None |} h
       = (Threw (undefinedMember key), h).
Proof.
  intros Htool. unfold tools in Htool; simpl in Htool.
  destruct Htool as [<- | [<- | [<- | []]]]; simpl.
  - exists "input_path"; split; [now left | reflexivity].
  - exists "mermaid_code"; split; [now left | reflexivity].
  - exists "mermaid_code"; split; [now left | reflexivity].
Qed.

(** C9.  A required argument that is present but empty is treated as an
    absent one: the handler answers [isError: true] with the tool's
    missing-argument message, the same answer as for the request with that
    member deleted, and makes no call at all (the history is unchanged, so
    no conversion ran and no browser was launched). *)
Theorem empty_required_argument_rejected (tool : Tool) (key : string)
    (args : ToolArguments) (h : History) :
  In tool tools ->
  In key (required tool) ->
  member args key = Some EmptyString ->
  callTool drv {| name := tool_name tool; arguments := Some args |} h
  = (Returned (missingArgumentResult (tool_name tool)), h)
  /\ callTool drv {| name := tool_name tool; arguments := Some args |} h
     = callTool drv
         {| name := tool_name tool; arguments := Some (without key args) |} h
  /\ member (without key args) key = None
  /\ isError (missingArgumentResult (tool_name tool)) = Some true.
Proof.
  intros Htool Hkey Hempty.
  assert (Hgone : member (without key args) key = None).
  { unfold tools in Htool; simpl in Htool.
    destruct Htool as [<- | [<- | [<- | []]]]; simpl in Hkey;
      repeat (destruct Hkey as [<- | Hkey]; try contradiction);
      reflexivity. }
  repeat split; trivial.
  - apply (falsy_member_rejected tool key); trivial. now rewrite Hempty.
  - rewrite (falsy_member_rejected tool key args); trivial.
    + rewrite (falsy_member_rejected tool key (without key args)); trivial.
      now rewrite Hgone.
    + now rewrite Hempty.
Qed.

End FrontEnd.

Section MissingArguments.
Import JS Effects Server.

Variable drv : Driver.

(** With an [arguments] object in the request, a required member that is
    absent is answered with [isError: true] and the tool's message, and no
    call is made. *)
Lemma absent_required_argument_rejected (tool : Tool) (key : string)
    (args : ToolArguments) (h : History) :
  In tool tools ->
  In key (required tool) ->
  member args key = None ->
  callTool drv {| name := tool_name tool; arguments := Some args |} h
  = (Returned (missingArgumentResult (tool_name tool)), h).
Proof.
  intros Htool Hkey Habsent.
  apply (falsy_member_rejected drv tool key); trivial.
  now rewrite Habsent.
Qed.

(** C4, at the request without an [arguments] object.  Every required
    argument of [convert_md_to_pdf] is absent from it; the handler throws
    instead of answering [isError: true] (no conversion is invoked: the
    history is unchanged). *)
Theorem absent_arguments_object_throws (h : History) :
  callTool drv {| name := "convert_md_to_pdf"; arguments := None |} h
  = (Threw
       (ErrorObject
          "Cannot read properties of undefined (reading 'input_path')"),
     h).
Proof. reflexivity. Qed.

End MissingArguments.

Section FrontEndExample.
Import JS Effects Server.

(** C9 at a PNG request whose [output_path] is the empty string. *)
Lemma empty_required_argument_rejected_witness :
  callTool Reference.drawing
    {| name := "convert_mermaid_to_png"; arguments := Some Reference.emptyOutputPath |}
    []
  = (Returned
       (textResult "Error: mermaid_code and output_path are required"
          (Some true)),
     [])
  /\ callTool Reference.drawing
       {| name := "convert_mermaid_to_png";
          arguments := Some Reference.emptyOutputPath |} []
     = callTool Reference.drawing
         {| name := "convert_mermaid_to_png";
            arguments := Some (without "output_path" Reference.emptyOutputPath) |} []
  /\ member (without "output_path" Reference.emptyOutputPath) "output_path" = None
  /\ isError (missingArgumentResult "convert_mermaid_to_png") = Some true.
Proof.
  exact (empty_required_argument_rejected Reference.drawing
           Reference.pngTool "output_path" Reference.emptyOutputPath []
           (or_intror (or_introl eq_refl))
           (or_intror (or_introl eq_refl))
           eq_refl).
Defined.

End FrontEndExample.

(* ================================================================== *)
(** * The tool front-end: dispatch and response shaping *)
(* ================================================================== *)

Section Dispatch.
Import JS Effects Server Reading.

Variable drv : Driver.

(** X1.  A request that names none of the listed tools is answered with
    [isError: true] and the text [Unknown tool: <name>]; the handler makes
    no call and does not throw, with or without an [arguments] object. *)
Theorem unknown_tool_is_answered (request : CallToolRequest) (h : History) :
  ~ In (name request) (map tool_name tools) ->
  callTool drv request h
  = (Returned (textResult ("Unknown tool: " ++ name request) (Some true)), h).
Proof.
  intros Hunknown. simpl in Hunknown. unfold callTool.
  destruct (String.eqb_spec (name request) "convert_md_to_pdf") as [Heq|_];
    [exfalso; apply Hunknown; rewrite Heq; auto|].
  destruct (String.eqb_spec (name request) "convert_mermaid_to_png")
    as [Heq|_];
    [exfalso; apply Hunknown; rewrite Heq; auto|].
  destruct (String.eqb_spec (name request) "convert_mermaid_to_pdf")
    as [Heq|_];
    [exfalso; apply Hunknown; rewrite Heq; auto|].
  reflexivity.
Qed.

(** X2.  Given an [arguments] object, the handler returns for every tool
    name and every behaviour of the collaborators: it never throws, and
    its answer is the missing-argument message, the shaped result of a
    conversion, or the unknown-tool message. *)
Theorem handler_returns (request : CallToolRequest) (args : ToolArguments)
    (h : History) :
  arguments request = Some args ->
  exists response h',
    callTool drv request h = (Returned response, h')
    /\ answered request response.
Proof.
  intros Hargs. unfold callTool. rewrite Hargs.
  destruct (String.eqb_spec (name request) "convert_md_to_pdf") as [Hmd|_].
  - destruct (truthy_opt (input_path args)); simpl.
    + match goal with
      | |- context [Converter.convertMarkdownToPDF drv ?o] =>
          destruct (convertMarkdownToPDF_returns drv o h)
            as (r & h' & Hrun & Hshape)
      end.
      unfold bind, ret. rewrite Hrun. do 2 eexists. split; [reflexivity|].
      now constructor.
    + do 2 eexists. split; [reflexivity|].
      replace "Error: input_path is required"
        with (missingArgumentMessage (name request))
        by (now rewrite Hmd).
      apply AnsweredMissing.
  - destruct (String.eqb_spec (name request) "convert_mermaid_to_png")
      as [Hpng|_].
    + destruct (negb (truthy_opt (mermaid_code args))
                || negb (truthy_opt (output_path args))).
      * do 2 eexists. split; [reflexivity|].
        replace "Error: mermaid_code and output_path are required"
          with (missingArgumentMessage (name request))
          by (now rewrite Hpng).
        apply AnsweredMissing.
      * match goal with
        | |- context [Converter.convertMermaidToPNG drv ?o] =>
            destruct (convertMermaidToPNG_returns drv o h)
              as (r & h' & Hrun & Hshape)
        end.
        unfold bind, ret. rewrite Hrun. do 2 eexists.
        split; [reflexivity|]. now constructor.
    + destruct (String.eqb_spec (name request) "convert_mermaid_to_pdf")
        as [Hpdf|_].
      * destruct (negb (truthy_opt (mermaid_code args))
                  || negb (truthy_opt (output_path args))).
        -- do 2 eexists. split; [reflexivity|].
           replace "Error: mermaid_code and output_path are required"
             with (missingArgumentMessage (name request))
             by (now rewrite Hpdf).
           apply AnsweredMissing.
        -- match goal with
           | |- context [Converter.convertMermaidToPDF drv ?o] =>
               destruct (convertMermaidToPDF_returns drv o h)
                 as (r & h' & Hrun & Hshape)
           end.
           unfold bind, ret. rewrite Hrun. do 2 eexists.
           split; [reflexivity|]. now constructor.
      * do 2 eexists. split; [reflexivity|]. apply AnsweredUnknown.
Qed.

End Dispatch.

(** X1 on a request for a tool that is not listed, without arguments. *)
Lemma unknown_tool_is_answered_witness :
  Server.callTool Reference.plain
    {| Server.name := "convert_docx_to_pdf"; Server.arguments := None |} []
  = (Effects.Returned
       (Server.textResult "Unknown tool: convert_docx_to_pdf" (Some true)),
     []).
Proof.
  apply (unknown_tool_is_answered Reference.plain
           {| Server.name := "convert_docx_to_pdf";
              Server.arguments := None |} []).
  simpl. intros [H | [H | [H | []]]]; discriminate H.
Defined.

(** X2 on a request to convert [/x/doc.md]. *)
Lemma handler_returns_witness :
  exists response h',
    Server.callTool Reference.drawing (Scenario.markdownRequest "/x/doc.md") []
    = (Effects.Returned response, h')
    /\ Reading.answered (Scenario.markdownRequest "/x/doc.md") response.
Proof.
  exact (handler_returns Reference.drawing
           (Scenario.markdownRequest "/x/doc.md") _ [] eq_refl).
Defined.

Section Validation.
Import JS Effects Server.

Variable drv : Driver.

Lemma answerOf_is_not_missing (tool : string) (r : ConversionResult) :
  Reading.answerOf tool r <> missingArgumentResult tool.
Proof.
  unfold Reading.answerOf, Reading.successLine, missingArgumentResult,
    missingArgumentMessage, textResult.
  destruct (success r).
  - destruct (tool =? "convert_md_to_pdf"); [discriminate|].
    destruct (tool =? "convert_mermaid_to_png"); discriminate.
  - destruct (tool =? "convert_md_to_pdf"); discriminate.
Qed.

(** A listed tool given all it requires: the handler runs the tool's
    conversion and answers with its outcome. *)
Lemma complete_arguments_are_converted (tool : Tool) (args : ToolArguments)
    (h : History) :
  In tool tools ->
  (forall key, In key (required tool) ->
     truthy_opt (member args key) = true) ->
  exists r h',
    Reading.conversion drv (tool_name tool) args h = (Returned r, h')
    /\ callTool drv {| name := tool_name tool; arguments := Some args |} h
       = (Returned (Reading.answerOf (tool_name tool) r), h').
Proof.
  intros Htool Hgiven. unfold tools in Htool; simpl in Htool.
  destruct Htool as [<- | [<- | [<- | []]]];
    unfold callTool, Reading.conversion; simpl.
  - pose proof (Hgiven "input_path" ltac:(simpl; auto)) as Hin.
    unfold member in Hin; simpl in Hin. rewrite Hin. simpl.
    match goal with
    | |- context [Converter.convertMarkdownToPDF drv ?o] =>
        destruct (convertMarkdownToPDF_returns drv o h)
          as (r & h1 & Hconv & _)
    end.
    unfold bind, ret. rewrite Hconv. now exists r, h1.
  - pose proof (Hgiven "mermaid_code" ltac:(simpl; auto)) as Hcode.
    pose proof (Hgiven "output_path" ltac:(simpl; auto)) as Hout.
    unfold member in Hcode, Hout; simpl in Hcode, Hout.
    rewrite Hcode, Hout. simpl.
    match goal with
    | |- context [Converter.convertMermaidToPNG drv ?o] =>
        destruct (convertMermaidToPNG_returns drv o h)
          as (r & h1 & Hconv & _)
    end.
    unfold bind, ret. rewrite Hconv. now exists r, h1.
  - pose proof (Hgiven "mermaid_code" ltac:(simpl; auto)) as Hcode.
    pose proof (Hgiven "output_path" ltac:(simpl; auto)) as Hout.
    unfold member in Hcode, Hout; simpl in Hcode, Hout.
    rewrite Hcode, Hout. simpl.
    match goal with
    | |- context [Converter.convertMermaidToPDF drv ?o] =>
        destruct (convertMermaidToPDF_returns drv o h)
          as (r & h1 & Hconv & _)
    end.
    unfold bind, ret. rewrite Hconv. now exists r, h1.
Qed.

Lemma some_required_is_falsy (tool : Tool) (args : ToolArguments) :
  (exists key,
      In key (required tool) /\ truthy_opt (member args key) = false)
  \/ (forall key, In key (required tool) ->
        truthy_opt (member args key) = true).
Proof.
  induction (required tool) as [|key keys [(k & Hin & Hk) | Hall]].
  - right. intros key [].
  - left. exists k. split; [now right | exact Hk].
  - destruct (truthy_opt (member args key)) eqn:Hkey.
    + right. intros k [<- | Hin]; [exact Hkey | now apply Hall].
    + left. exists key. split; [now left | exact Hkey].
Qed.

(** X3.  For a listed tool and a request whose [arguments] object holds
    strings, the handler settles the request by the keys the tool lists as
    required.  When one of them is absent or empty it gives the tool's
    missing-argument answer and calls nothing.  When all are there it runs
    the conversion the tool stands for, on the arguments as given, and
    answers with its outcome: the tool's own success line and the output
    path, or [Conversion failed: ] and the error; this is never the
    missing-argument answer.  So the missing-argument answer is given
    exactly when a required key is absent or empty. *)
Theorem validation_is_exact (tool : Tool) (args : ToolArguments) (h : History) :
  In tool tools ->
  let request := {| name := tool_name tool; arguments := Some args |} in
  ((exists key,
       In key (required tool) /\ truthy_opt (member args key) = false) ->
   callTool drv request h
   = (Returned (missingArgumentResult (tool_name tool)), h))
  /\ ((forall key, In key (required tool) ->
         truthy_opt (member args key) = true) ->
      exists r h',
        Reading.conversion drv (tool_name tool) args h = (Returned r, h')
        /\ callTool drv request h
           = (Returned (Reading.answerOf (tool_name tool) r), h')
        /\ Reading.answerOf (tool_name tool) r
           <> missingArgumentResult (tool_name tool))
  /\ ((exists h',
         callTool drv request h
         = (Returned (missingArgumentResult (tool_name tool)), h'))
      <-> exists key,
            In key (required tool)
            /\ truthy_opt (member args key) = false).
Proof.
  intros Htool request.
  assert (Hmissing :
            (exists key,
                In key (required tool)
                /\ truthy_opt (member args key) = false) ->
            callTool drv request h
            = (Returned (missingArgumentResult (tool_name tool)), h)).
  { intros (key & Hkey & Hfalsy).
    now apply (falsy_member_rejected drv tool key). }
  assert (Hcomplete :
            (forall key, In key (required tool) ->
               truthy_opt (member args key) = true) ->
            exists r h',
              Reading.conversion drv (tool_name tool) args h
              = (Returned r, h')
              /\ callTool drv request h
                 = (Returned (Reading.answerOf (tool_name tool) r), h')
              /\ Reading.answerOf (tool_name tool) r
                 <> missingArgumentResult (tool_name tool)).
  { intros Hgiven.
    destruct (complete_arguments_are_converted tool args h Htool Hgiven)
      as (r & h' & Hconv & Hrun).
    exists r, h'. repeat split; trivial. apply answerOf_is_not_missing. }
  split; [exact Hmissing|]. split; [exact Hcomplete|]. split.
  - intros (h' & Hrun).
    destruct (some_required_is_falsy tool args) as [Hfalsy | Hgiven];
      [exact Hfalsy|].
    exfalso. destruct (Hcomplete Hgiven) as (r & h1 & _ & Hanswer & Hother).
    rewrite Hanswer in Hrun. injection Hrun as Hsame _.
    now apply Hother.
  - intros Hfalsy. exists h. now apply Hmissing.
Qed.

(** X4.  When the input file cannot be read, or is read but the Markdown
    parser throws, [convert_md_to_pdf] answers [isError: true] with
    [Conversion failed: ] followed by the message of the error; the only
    call made is the read, so no browser is launched. *)
Theorem unusable_input_is_reported (args : ToolArguments) (h : History)
    (e : thrown) :
  truthy_opt (input_path args) = true ->
  fs_readFile drv (guarded (input_path args)) "utf-8" h = Threw e
  \/ (exists content,
        fs_readFile drv (guarded (input_path args)) "utf-8" h
        = Returned content
        /\ marked_lexer drv content = Threw e) ->
  callTool drv {| name := "convert_md_to_pdf"; arguments := Some args |} h
  = (Returned
       (textResult ("Conversion failed: " ++ errorMessage e) (Some true)),
     EvReadFile (guarded (input_path args)) "utf-8" :: h).
Proof.
  intros Hgiven Hfails. unfold callTool. simpl. rewrite Hgiven. simpl.
  unfold bind, Converter.convertMarkdownToPDF.
  reduce_run. simpl inputPath.
  destruct Hfails as [Hread | (content & Hread & Hlex)]; rewrite Hread.
  - reflexivity.
  - reduce_run. rewrite Hlex. reflexivity.
Qed.

(** X5.  An empty [custom_css] is the same as none: the request is
    handled exactly as the one without that member. *)
Theorem empty_custom_css_is_none (args : ToolArguments) (h : History) :
  custom_css args = Some EmptyString ->
  callTool drv {| name := "convert_md_to_pdf"; arguments := Some args |} h
  = callTool drv
      {| name := "convert_md_to_pdf";
         arguments := Some (without "custom_css" args) |} h.
Proof.
  intros Hcss. unfold callTool. simpl. rewrite Hcss.
  destruct (truthy_opt (input_path args)); reflexivity.
Qed.

End Validation.

(** X3 on the PNG tool and a request whose [output_path] is empty. *)
Lemma validation_is_exact_witness :
  Server.callTool Reference.plain
    {| Server.name := "convert_mermaid_to_png";
       Server.arguments := Some Reference.emptyOutputPath |} []
  = (Effects.Returned
       (Server.missingArgumentResult "convert_mermaid_to_png"), []).
Proof.
  apply (proj1 (validation_is_exact Reference.plain Reference.pngTool
                  Reference.emptyOutputPath []
                  (or_intror (or_introl eq_refl)))).
  exists "output_path". split; [simpl; auto | reflexivity].
Defined.

(** X4 on a file that does not exist. *)
Lemma unusable_input_is_reported_witness :
  Server.callTool Reference.plain (Scenario.markdownRequest "/x/nope.md") []
  = (Effects.Returned
       (Server.textResult
          "Conversion failed: ENOENT: no such file or directory, open '/x/nope.md'"
          (Some true)),
     [Effects.EvReadFile "/x/nope.md" "utf-8"]).
Proof.
  apply (unusable_input_is_reported Reference.plain
           {| Server.input_path := Some "/x/nope.md";
              Server.output_path := None; Server.custom_css := None;
              Server.mermaid_code := None |} []
           (JS.ErrorObject
              "ENOENT: no such file or directory, open '/x/nope.md'")).
  - reflexivity.
  - left. reflexivity.
Defined.

(** X5 on a request to convert [/x/doc.md] with an empty [custom_css]. *)
Lemma empty_custom_css_is_none_witness :
  Server.callTool Reference.plain
    {| Server.name := "convert_md_to_pdf";
       Server.arguments :=
         Some {| Server.input_path := Some "/x/doc.md";
                 Server.output_path := None;
                 Server.custom_css := Some EmptyString;
                 Server.mermaid_code := None |} |} []
  = Server.callTool Reference.plain (Scenario.markdownRequest "/x/doc.md") [].
Proof.
  apply (empty_custom_css_is_none Reference.plain
           {| Server.input_path := Some "/x/doc.md";
              Server.output_path := None;
              Server.custom_css := Some EmptyString;
              Server.mermaid_code := None |} []).
  reflexivity.
Defined.

(* ================================================================== *)
(** * What a successful conversion has done *)
(* ================================================================== *)

Section Success.
Import JS Effects Converter Reading.

Variable drv : Driver.

(** A run that ended in a result, read back. *)
Ltac read_back :=
  intros;
  match goal with
  | Hrun : (_, _) = (_, _) |- _ => inversion Hrun; clear Hrun; subst
  end;
  match goal with
  | Hsuccess : success _ = true |- _ =>
      simpl in Hsuccess; try discriminate Hsuccess
  end;
  repeat match goal with
         | u : unit |- _ => destruct u
         end.

Lemma convertMarkdownToPDF_success (options : ConversionOptions)
    (h h' : History) (r : ConversionResult) :
  convertMarkdownToPDF drv options h = (Returned r, h') ->
  success r = true ->
  result_outputPath r = Some (resolveOutputPath options)
  /\ exists content tokens b page,
       let capture :=
         {| pdf_path := resolveOutputPath options; format := "A4";
            margin := margins "20mm"; printBackground := true |} in
       let loaded :=
         EvSetContent page
           (createHTMLDocument (Marked.parse renderer_code tokens)
              (customCSS options))
           "networkidle0"
         :: EvNewPage b
         :: EvLaunch launchOptions (Some b)
         :: EvReadFile (inputPath options) "utf-8" :: h in
       let waited :=
         EvWaitForFunction page Dom.AllMermaidElementsRendered renderTimeout
         :: loaded in
       fs_readFile drv (inputPath options) "utf-8" h = Returned content
       /\ marked_lexer drv content = Returned tokens
       /\ page_waitForFunction drv page Dom.AllMermaidElementsRendered
            renderTimeout loaded
          = Returned tt
       /\ page_pdf drv page capture waited = Returned tt
       /\ h' = EvClose b :: EvPdf page capture :: waited.
Proof.
  revert r h'. run convertMarkdownToPDF; read_back.
  split; [reflexivity|]. do 4 eexists. cbv zeta.
  repeat split; eassumption.
Qed.

Lemma convertMermaidToPNG_success (options : MermaidConversionOptions)
    (h h' : History) (r : ConversionResult) :
  convertMermaidToPNG drv options h = (Returned r, h') ->
  success r = true ->
  result_outputPath r = Some (mermaid_outputPath options)
  /\ exists b page element,
       let capture :=
         {| screenshot_path := mermaid_outputPath options;
            omitBackground := false |} in
       let loaded :=
         EvSetContent page (createMermaidOnlyHTML (mermaidCode options))
           "networkidle0"
         :: EvNewPage b
         :: EvLaunch launchOptions (Some b) :: h in
       let waited :=
         EvWaitForFunction page Dom.MermaidElementRendered renderTimeout
         :: loaded in
       page_waitForFunction drv page Dom.MermaidElementRendered
         renderTimeout loaded
       = Returned tt
       /\ page_query drv page ".mermaid svg" waited = Returned (Some element)
       /\ element_screenshot drv element capture
            (EvQuery page ".mermaid svg" :: waited)
          = Returned tt
       /\ h' = EvClose b
               :: EvScreenshot element capture
               :: EvQuery page ".mermaid svg" :: waited.
Proof.
  revert r h'. run convertMermaidToPNG; read_back.
  split; [reflexivity|]. do 3 eexists. cbv zeta.
  repeat split; eassumption.
Qed.

Lemma convertMermaidToPDF_success (options : MermaidConversionOptions)
    (h h' : History) (r : ConversionResult) :
  convertMermaidToPDF drv options h = (Returned r, h') ->
  success r = true ->
  result_outputPath r = Some (mermaid_outputPath options)
  /\ exists b page,
       let capture :=
         {| pdf_path := mermaid_outputPath options; format := "A4";
            margin := margins "10mm"; printBackground := true |} in
       let loaded :=
         EvSetContent page (createMermaidOnlyHTML (mermaidCode options))
           "networkidle0"
         :: EvNewPage b
         :: EvLaunch launchOptions (Some b) :: h in
       let waited :=
         EvWaitForFunction page Dom.MermaidElementRendered renderTimeout
         :: loaded in
       page_waitForFunction drv page Dom.MermaidElementRendered
         renderTimeout loaded
       = Returned tt
       /\ page_pdf drv page capture waited = Returned tt
       /\ h' = EvClose b :: EvPdf page capture :: waited.
Proof.
  revert r h'. run convertMermaidToPDF; read_back.
  split; [reflexivity|]. do 2 eexists. cbv zeta.
  repeat split; eassumption.
Qed.


End Success.


(* ================================================================== *)
(** * What an answer without [isError] reports *)
(* ================================================================== *)

Section Reported.
Import JS Effects Converter Server Reading.

Variable drv : Driver.

(** X7.  An answer of the handler without [isError] names a file that was
    written: the request is for one of the listed tools, the text of the
    answer is that tool's own success line followed by [Output: ] and a
    path, the last two calls made are the tool's kind of capture (a
    screenshot for the PNG tool, [page.pdf] for the others) to that very
    path and the closing of the browser, and when the request carries an
    [output_path] the path is that one. *)
Theorem reported_path_is_captured (request : CallToolRequest)
    (args : ToolArguments) (h h' : History) (response : CallToolResult) :
  arguments request = Some args ->
  callTool drv request h = (Returned response, h') ->
  isError response = None ->
  In (name request) (map tool_name tools)
  /\ exists path b capture rest,
       response
       = textResult
           (successLine (name request) ++ newline ++ "Output: " ++ path)
           None
       /\ h' = EvClose b :: capture :: rest
       /\ capturedPath capture = Some path
       /\ capturesFor (name request) capture
       /\ (truthy_opt (output_path args) = true ->
           output_path args = Some path).
Proof.
  intros Hargs Hrun Hflag. unfold callTool in Hrun. rewrite Hargs in Hrun.
  destruct (String.eqb_spec (name request) "convert_md_to_pdf") as [Hmd|_].
  { destruct (truthy_opt (input_path args)); simpl in Hrun;
      [|inversion Hrun; subst; discriminate Hflag].
    unfold bind, ret in Hrun.
    match type of Hrun with
    | context [convertMarkdownToPDF drv ?o h] =>
        destruct (convertMarkdownToPDF drv o h) as [[r|thrown] h1] eqn:Hconv
    end; [|discriminate Hrun].
    inversion Hrun; subst response h'; clear Hrun. unfold respond in *.
    destruct (success r) eqn:Hsuccess; [|discriminate Hflag].
    destruct (convertMarkdownToPDF_success drv _ _ _ _ Hconv Hsuccess)
      as (Hpath & content & tokens & b & page & _ & _ & _ & _ & Hcalls).
    rewrite Hpath, Hmd. cbv zeta in Hcalls. rewrite Hcalls.
    split; [simpl; auto|].
    do 4 eexists. split; [reflexivity|]. split; [reflexivity|].
    split; [reflexivity|]. split; [simpl; discriminate|]. simpl.
    unfold resolveOutputPath, or_else, truthy_opt. simpl.
    destruct (output_path args) as [given|]; [|discriminate].
    intros Hgiven. now rewrite Hgiven. }
  destruct (String.eqb_spec (name request) "convert_mermaid_to_png")
    as [Hpng|_].
  { destruct (truthy_opt (mermaid_code args)); simpl in Hrun;
      [|inversion Hrun; subst; discriminate Hflag].
    destruct (truthy_opt (output_path args)) eqn:Hout; simpl in Hrun;
      [|inversion Hrun; subst; discriminate Hflag].
    unfold bind, ret in Hrun.
    match type of Hrun with
    | context [convertMermaidToPNG drv ?o h] =>
        destruct (convertMermaidToPNG drv o h) as [[r|thrown] h1] eqn:Hconv
    end; [|discriminate Hrun].
    inversion Hrun; subst response h'; clear Hrun. unfold respond in *.
    destruct (success r) eqn:Hsuccess; [|discriminate Hflag].
    destruct (convertMermaidToPNG_success drv _ _ _ _ Hconv Hsuccess)
      as (Hpath & b & page & element & _ & _ & _ & Hcalls).
    rewrite Hpath, Hpng. cbv zeta in Hcalls. rewrite Hcalls.
    split; [simpl; auto|].
    do 4 eexists. split; [reflexivity|]. split; [reflexivity|].
    split; [reflexivity|]. split; [reflexivity|]. simpl.
    destruct (output_path args); [reflexivity | discriminate]. }
  destruct (String.eqb_spec (name request) "convert_mermaid_to_pdf")
    as [Hpdf|_].
  { destruct (truthy_opt (mermaid_code args)); simpl in Hrun;
      [|inversion Hrun; subst; discriminate Hflag].
    destruct (truthy_opt (output_path args)) eqn:Hout; simpl in Hrun;
      [|inversion Hrun; subst; discriminate Hflag].
    unfold bind, ret in Hrun.
    match type of Hrun with
    | context [convertMermaidToPDF drv ?o h] =>
        destruct (convertMermaidToPDF drv o h) as [[r|thrown] h1] eqn:Hconv
    end; [|discriminate Hrun].
    inversion Hrun; subst response h'; clear Hrun. unfold respond in *.
    destruct (success r) eqn:Hsuccess; [|discriminate Hflag].
    destruct (convertMermaidToPDF_success drv _ _ _ _ Hconv Hsuccess)
      as (Hpath & b & page & _ & _ & Hcalls).
    rewrite Hpath, Hpdf. cbv zeta in Hcalls. rewrite Hcalls.
    split; [simpl; auto|].
    do 4 eexists. split; [reflexivity|]. split; [reflexivity|].
    split; [reflexivity|]. split; [simpl; discriminate|]. simpl.
    destruct (output_path args); [reflexivity | discriminate]. }
  inversion Hrun; subst; discriminate Hflag.
Qed.

End Reported.

(** X7 on a request to convert [/x/doc.md] without an [output_path]. *)
Lemma reported_path_is_captured_witness :
  In "convert_md_to_pdf" (map Server.tool_name Server.tools)
  /\ exists path b capture rest,
       Server.textResult
         ("Successfully converted Markdown to PDF!" ++ Converter.newline
            ++ "Output: /x/doc.pdf")
         None
       = Server.textResult
           (Reading.successLine "convert_md_to_pdf" ++ Converter.newline
              ++ "Output: " ++ path)
           None
       /\ snd (Server.callTool Reference.plain
                 (Scenario.markdownRequest "/x/doc.md") [])
          = Effects.EvClose b :: capture :: rest
       /\ Reading.capturedPath capture = Some path
       /\ Reading.capturesFor "convert_md_to_pdf" capture
       /\ (JS.truthy_opt None = true -> None = Some path).
Proof.
  exact (reported_path_is_captured Reference.plain
           (Scenario.markdownRequest "/x/doc.md")
           {| Server.input_path := Some "/x/doc.md";
              Server.output_path := None; Server.custom_css := None;
              Server.mermaid_code := None |}
           []
           (snd (Server.callTool Reference.plain
                   (Scenario.markdownRequest "/x/doc.md") []))
           (Server.textResult
              ("Successfully converted Markdown to PDF!" ++ Converter.newline
                 ++ "Output: /x/doc.pdf")
              None)
           eq_refl eq_refl eq_refl).
Defined.

(* ================================================================== *)
(** * The order of the calls *)
(* ================================================================== *)

Section Order.
Import JS Effects Converter Reading.

Variable drv : Driver.

(** The calls made after the wait [w] in the history [l]. *)
Ltac calls_after w l :=
  lazymatch l with
  | w :: _ => constr:(@nil event)
  | ?ev :: ?l' => let rest := calls_after w l' in constr:(ev :: rest)
  end.

(** The calls made before the wait [w] in the history [l]. *)
Ltac calls_before w l :=
  lazymatch l with
  | w :: ?rest => rest
  | _ :: ?l' => calls_before w l'
  end.

Ltac check_orderly :=
  unfold orderly, count; simpl;
  repeat (split; [lia|]);
  intros ev Hin Hcapture;
  repeat match goal with
         | H : _ \/ _ |- _ => destruct H as [H | H]
         | H : False |- _ => contradiction
         end;
  subst ev; simpl in Hcapture; try discriminate Hcapture;
  repeat match goal with
         | u : unit |- _ => destruct u
         end;
  match goal with
  | Hwait : page_waitForFunction drv ?p ?f renderTimeout ?before
            = Returned tt
    |- exists page g earlier after, ?l = _ /\ _ /\ _ =>
      let a := calls_after (EvWaitForFunction p f renderTimeout) l in
      let e := calls_before (EvWaitForFunction p f renderTimeout) l in
      exists p, f, e, a;
      split; [reflexivity | split; [simpl; auto | exact Hwait]]
  end.

Lemma convertMarkdownToPDF_orderly (options : ConversionOptions)
    (h : History) :
  exists r added,
    convertMarkdownToPDF drv options h = (r, (added ++ h)%list)
    /\ orderly drv h added.
Proof.
  run convertMarkdownToPDF; exhibit_run h; check_orderly.
Qed.

Lemma convertMermaidToPNG_orderly (options : MermaidConversionOptions)
    (h : History) :
  exists r added,
    convertMermaidToPNG drv options h = (r, (added ++ h)%list)
    /\ orderly drv h added.
Proof.
  run convertMermaidToPNG; exhibit_run h; check_orderly.
Qed.

Lemma convertMermaidToPDF_orderly (options : MermaidConversionOptions)
    (h : History) :
  exists r added,
    convertMermaidToPDF drv options h = (r, (added ++ h)%list)
    /\ orderly drv h added.
Proof.
  run convertMermaidToPDF; exhibit_run h; check_orderly.
Qed.

(** X8.  Whatever the collaborators answer, a run of any of the three
    operations starts at most one browser, waits at most once, captures at
    most once and closes at most once (nothing is retried), and every
    capture comes after a call of [page.waitForFunction] of the same run
    that was given the deadline 30000 and returned. *)
Theorem calls_are_orderly (h : History) :
  (forall options, exists r added,
      convertMarkdownToPDF drv options h = (r, (added ++ h)%list)
      /\ orderly drv h added)
  /\ (forall options, exists r added,
        convertMermaidToPNG drv options h = (r, (added ++ h)%list)
        /\ orderly drv h added)
  /\ (forall options, exists r added,
        convertMermaidToPDF drv options h = (r, (added ++ h)%list)
        /\ orderly drv h added).
Proof.
  split; [|split]; intros options.
  - apply convertMarkdownToPDF_orderly.
  - apply convertMermaidToPNG_orderly.
  - apply convertMermaidToPDF_orderly.
Qed.

End Order.

(* ================================================================== *)
(** * Failures of the browser *)
(* ================================================================== *)

Section BrowserFailures.
Import JS Effects Converter Server.

Variable drv : Driver.

(** X9.  In [convertMermaidToPNG], when the wait has returned but [page.$]
    finds no [.mermaid svg] element, no screenshot is taken: the browser
    is closed and the result is a failure, with the message
    [Failed to render Mermaid diagram] unless closing threw too. *)
Theorem unfound_element_is_a_failure (options : MermaidConversionOptions)
    (h : History) (b : Browser) (page : Page) :
  let h1 := EvLaunch launchOptions (Some b) :: h in
  let h2 := EvNewPage b :: h1 in
  let h3 :=
    EvSetContent page (createMermaidOnlyHTML (mermaidCode options))
      "networkidle0" :: h2 in
  let h4 :=
    EvWaitForFunction page Dom.MermaidElementRendered renderTimeout :: h3 in
  let h5 := EvQuery page ".mermaid svg" :: h4 in
  puppeteer_launch drv launchOptions h = Returned b ->
  browser_newPage drv b h1 = Returned page ->
  page_setContent drv page (createMermaidOnlyHTML (mermaidCode options))
    "networkidle0" h2
  = Returned tt ->
  page_waitForFunction drv page Dom.MermaidElementRendered renderTimeout h3
  = Returned tt ->
  page_query drv page ".mermaid svg" h4 = Returned None ->
  convertMermaidToPNG drv options h
  = (Returned
       (failed
          match browser_close drv b h5 with
          | Returned _ => ErrorObject "Failed to render Mermaid diagram"
          | Threw e => e
          end),
     EvClose b :: h5).
Proof.
  intros h1 h2 h3 h4 h5 Hlaunch Hpage Hset Hwait Hquery.
  unfold convertMermaidToPNG. reduce_run.
  rewrite Hlaunch. reduce_run. fold h1. rewrite Hpage. reduce_run.
  fold h2. rewrite Hset. reduce_run. fold h3. rewrite Hwait. reduce_run.
  fold h4. rewrite Hquery. reduce_run. fold h5.
  destruct (browser_close drv b h5); reflexivity.
Qed.

(** The last call of a run in which [browser.close] always throws [e]. *)
Ltac closing :=
  match goal with
  | Hclose : forall b calls, browser_close drv b calls = Threw _,
    Hcase : browser_close drv _ _ = _ |- _ =>
      rewrite Hclose in Hcase; inversion Hcase; subst
  end;
  eexists; reflexivity.


(** X11.  When no browser can be launched, the two diagram tools answer
    [isError: true] with [Conversion failed: ] and the message of the
    launch error; the failed launch is the only call made, so nothing is
    closed. *)
Theorem launch_failure_is_reported (tool : string) (args : ToolArguments)
    (h : History) (e : thrown) :
  tool = "convert_mermaid_to_png" \/ tool = "convert_mermaid_to_pdf" ->
  truthy_opt (mermaid_code args) = true ->
  truthy_opt (output_path args) = true ->
  puppeteer_launch drv launchOptions h = Threw e ->
  callTool drv {| name := tool; arguments := Some args |} h
  = (Returned
       (textResult ("Conversion failed: " ++ errorMessage e) (Some true)),
     EvLaunch launchOptions None :: h).
Proof.
  intros [-> | ->] Hcode Hout Hlaunch;
    unfold callTool; simpl; rewrite Hcode, Hout; simpl;
    unfold bind, convertMermaidToPNG, convertMermaidToPDF;
    reduce_run; rewrite Hlaunch; reflexivity.
Qed.

End BrowserFailures.

(** X9 on a page whose diagram is drawn while [page.$] finds nothing. *)
Lemma unfound_element_is_a_failure_witness :
  Converter.convertMermaidToPNG Scenario.lostElement Scenario.diagramOptions []
  = (Effects.Returned
       (Converter.failed (JS.ErrorObject "Failed to render Mermaid diagram")),
     [ Effects.EvClose 1;
       Effects.EvQuery 1 ".mermaid svg";
       Effects.EvWaitForFunction 1 Dom.MermaidElementRendered 30000%Z;
       Effects.EvSetContent 1
         (Converter.createMermaidOnlyHTML "graph TD") "networkidle0";
       Effects.EvNewPage 1;
       Effects.EvLaunch Converter.launchOptions (Some 1) ]).
Proof.
  exact (unfound_element_is_a_failure Scenario.lostElement
           Scenario.diagramOptions [] 1 1
           eq_refl eq_refl eq_refl eq_refl eq_refl).
Defined.


(** X11 on the PNG tool when no browser can be started. *)
Lemma launch_failure_is_reported_witness :
  Server.callTool Scenario.launchFails
    {| Server.name := "convert_mermaid_to_png";
       Server.arguments := Some Scenario.diagramArguments |} []
  = (Effects.Returned
       (Server.textResult
          "Conversion failed: Failed to launch the browser process!"
          (Some true)),
     [Effects.EvLaunch Converter.launchOptions None]).
Proof.
  exact (launch_failure_is_reported Scenario.launchFails
           "convert_mermaid_to_png" Scenario.diagramArguments []
           Scenario.launchFailed
           (or_introl eq_refl) eq_refl eq_refl eq_refl).
Defined.

(* ================================================================== *)
(** * Escaping of code text *)
(* ================================================================== *)

Section Escaping.
Import JS Converter Spec.

Lemma escapeCharacter_cases (c : ascii) :
  (c = "&"%char /\ escapeCharacter c = "&amp;")
  \/ (c = "<"%char /\ escapeCharacter c = "&lt;")
  \/ (c = ">"%char /\ escapeCharacter c = "&gt;")
  \/ (c <> "&"%char /\ c <> "<"%char /\ c <> ">"%char
      /\ escapeCharacter c = String c EmptyString).
Proof.
  unfold escapeCharacter.
  destruct (Ascii.eqb_spec c "&"%char); [now left|].
  destruct (Ascii.eqb_spec c "<"%char); [right; now left|].
  destruct (Ascii.eqb_spec c ">"%char); [right; right; now left|].
  right; right; right. tauto.
Qed.

Ltac by_character c :=
  let E := fresh "E" in
  destruct (escapeCharacter_cases c)
    as [[-> E] | [[-> E] | [[-> E] | (? & ? & ? & E)]]];
  rewrite E in *; clear E.

Lemma escapeEach_injective (a b : string) :
  escapeEach a = escapeEach b -> a = b.
Proof.
  revert b. induction a as [|x a IH]; intros [|y b]; simpl; intros Heq.
  - reflexivity.
  - by_character y; discriminate Heq.
  - by_character x; discriminate Heq.
  - by_character x; by_character y; simpl in Heq;
      inversion Heq; subst; try congruence;
      f_equal; now apply IH.
Qed.

Lemma string_length_append (a b : string) :
  String.length (a ++ b) = String.length a + String.length b.
Proof.
  induction a as [|c a IH]; simpl; [reflexivity | now rewrite IH].
Qed.

Lemma escapeEach_length (text : string) :
  String.length text <= String.length (escapeEach text).
Proof.
  induction text as [|c text IH]; simpl; [lia|].
  rewrite string_length_append.
  by_character c; simpl; lia.
Qed.

(** X12.  Escaping leaves a code text as it is exactly when the text has
    no [&], [<] or [>]. *)
Theorem escapeHTML_fixes_plain_text (text : string) :
  escapeHTML text = text
  <-> occurs "&"%char text = false
      /\ occurs "<"%char text = false
      /\ occurs ">"%char text = false.
Proof.
  rewrite escapeHTML_each.
  induction text as [|c text IH]; simpl; [tauto|].
  rewrite !orb_false_iff, !Ascii.eqb_neq. split.
  - intros Heq. by_character c; simpl in Heq.
    + exfalso. injection Heq as Heq.
      apply (f_equal String.length) in Heq. simpl in Heq.
      pose proof (escapeEach_length text). lia.
    + discriminate Heq.
    + discriminate Heq.
    + injection Heq as Heq. apply IH in Heq. tauto.
  - intros ((Hamp & Ha) & (Hlt & Hl) & (Hgt & Hg)).
    by_character c; try contradiction.
    simpl. f_equal. apply IH. tauto.
Qed.

(** X13.  Escaping loses nothing: two different code texts have different
    escaped forms. *)
Theorem escapeHTML_injective (a b : string) :
  a <> b -> escapeHTML a <> escapeHTML b.
Proof.
  rewrite !escapeHTML_each. intros Hdiffer Heq.
  now apply Hdiffer, escapeEach_injective.
Qed.

End Escaping.

(** X13 on a text and its own escaped form. *)
Lemma escapeHTML_injective_witness :
  Converter.escapeHTML "a<b" <> Converter.escapeHTML "a&lt;b".
Proof.
  apply (escapeHTML_injective "a<b" "a&lt;b"). discriminate.
Defined.

(* ================================================================== *)
(** * The two readiness checks compared *)
(* ================================================================== *)

Section ReadinessChecks.
Import Dom.

Lemma find_first_of_filter {A} (f : A -> bool) (l : list A) :
  find f l = hd_error (filter f l).
Proof.
  induction l as [|x l IH]; simpl; [reflexivity|].
  now destruct (f x).
Qed.

(** X14.  The check of the diagram tools looks at the first [.mermaid]
    element only.  It fails on a document without one; where there is
    one, it holds whenever the check of the Markdown conversion holds; on
    a document with exactly one the two checks agree; and some document
    with two passes the first check and fails the second. *)
Theorem readiness_checks_compared :
  (forall document,
      mermaidElementRendered document = true ->
      querySelectorAll_class "mermaid" document <> [])
  /\ (forall document,
        querySelectorAll_class "mermaid" document <> [] ->
        mermaidElementsRendered document = true ->
        mermaidElementRendered document = true)
  /\ (forall document el,
        querySelectorAll_class "mermaid" document = [el] ->
        mermaidElementRendered document = mermaidElementsRendered document)
  /\ exists document,
       mermaidElementRendered document = true
       /\ mermaidElementsRendered document = false.
Proof.
  unfold mermaidElementRendered, mermaidElementsRendered,
    querySelector_class, querySelectorAll_class.
  repeat split.
  - intros document. rewrite find_first_of_filter.
    destruct (filter _ _); [discriminate | discriminate].
  - intros document Hsome. rewrite find_first_of_filter.
    destruct (filter _ _) as [|el els]; [contradiction|].
    simpl. now intros Hall%andb_true_iff.
  - intros document el Hone. rewrite find_first_of_filter, Hone.
    simpl. now rewrite andb_true_r.
  - exists Scenario.halfDrawn. split; reflexivity.
Qed.

End ReadinessChecks.

(* ================================================================== *)
(** * The name of the default output file *)
(* ================================================================== *)

Section DefaultName.
Import JS Converter Path.
Local Open Scope list_scope.

#[local] Arguments normalize_chars : simpl never.

Lemma unsplit_last (segs : list chars) (name : chars) :
  exists prefix,
    unsplit (segs ++ [name]) = prefix ++ name
    /\ (prefix = [] \/ exists d, prefix = d ++ [slash]).
Proof.
  induction segs as [|seg segs (prefix & Heq & Hprefix)].
  - exists []. split; [reflexivity | now left].
  - exists (seg ++ slash :: prefix). split.
    + change ((seg :: segs) ++ [name]) with (seg :: (segs ++ [name])).
      simpl unsplit. destruct (segs ++ [name]) eqn:Hsegs;
        [now destruct segs|].
      rewrite Heq, <- app_assoc. reflexivity.
    + right. destruct Hprefix as [-> | (d & ->)].
      * now exists seg.
      * exists (seg ++ slash :: d). now rewrite <- app_assoc.
Qed.

(** [normalize] keeps a last segment that is plain, whatever comes
    before it. *)
Lemma normalize_keeps_name (dir name : chars) :
  Spec.plainSegment name = true ->
  exists prefix,
    normalize_chars (dir ++ slash :: name) = prefix ++ name
    /\ (prefix = [] \/ exists d, prefix = d ++ [slash]).
Proof.
  intros Hplain.
  destruct (plainSegment_spec name Hplain)
    as (Hne & Hnil & Hdot & Hdots & Hslash).
  assert (Hend : endsWithSlash (dir ++ slash :: name) = false).
  { rewrite endsWithSlash_app by discriminate.
    change (slash :: name) with ([slash] ++ name).
    rewrite endsWithSlash_app by exact Hne.
    now apply endsWithSlash_plain. }
  unfold normalize_chars. rewrite Hend.
  destruct (dir ++ slash :: name) as [|c q] eqn:Hq;
    [now destruct dir|].
  rewrite <- Hq. unfold normalizeString.
  rewrite split_app_slash, (split_plain name Hslash), fold_left_app.
  simpl fold_left. unfold normalizeStep at 1.
  rewrite Hnil, Hdot, Hdots. simpl orb. cbv iota.
  simpl rev.
  match goal with
  | |- context [unsplit (rev ?stack ++ [name])] =>
      destruct (unsplit_last (rev stack) name) as (prefix & -> & Hprefix)
  end.
  destruct (prefix ++ name) as [|b body] eqn:Hbody.
  { apply app_eq_nil in Hbody. destruct Hbody as [_ ->]. contradiction. }
  rewrite <- Hbody, app_nil_r.
  destruct (startsWithSlash (dir ++ slash :: name)).
  - exists ([slash] ++ prefix). split; [reflexivity|].
    right. destruct Hprefix as [-> | (d & ->)].
    + now exists [].
    + now exists ([slash] ++ d).
  - exists prefix. split; [reflexivity | exact Hprefix].
Qed.

Lemma dirname_nonempty (p : chars) : dirname_chars p <> [].
Proof.
  unfold dirname_chars. destruct p as [|c0 rest]; [discriminate|].
  destruct (dropWhile nonSlash (dropWhile isSlash (rev rest))).
  - destruct (isSlash c0); discriminate.
  - destruct (isSlash c0 && Nat.eqb (length l) 0); discriminate.
Qed.

(** What [basename] returns when given the extension has no separator. *)
Lemma stem_slash_free (p : chars) :
  forallb nonSlash (basename_chars p (extname_chars p)) = true.
Proof.
  assert (Hfile : forallb nonSlash (rev (lastComponentRev p)) = true)
    by (apply forallb_rev, takeWhile_all).
  rewrite component_stem_extension, forallb_app in Hfile.
  now apply andb_true_iff in Hfile.
Qed.

Lemma default_name_chars (p : chars) :
  let name :=
    basename_chars p (extname_chars p) ++ list_ascii_of_string ".pdf" in
  exists prefix,
    join_chars (dirname_chars p) name = prefix ++ name
    /\ (prefix = [] \/ exists d, prefix = d ++ [slash]).
Proof.
  intros name.
  assert (Hplain : Spec.plainSegment name = true).
  { unfold Spec.plainSegment, name.
    rewrite !chars_eqb_length
      by (rewrite length_app; simpl; lia).
    rewrite forallb_app, stem_slash_free. reflexivity. }
  destruct (plainSegment_spec name Hplain) as (Hne & _).
  unfold join_chars.
  pose proof (dirname_nonempty p) as Hdir.
  destruct (dirname_chars p) as [|d dir] eqn:Hd; [contradiction|].
  destruct name as [|n rest] eqn:Hn; [contradiction|].
  now apply normalize_keeps_name.
Qed.

Lemma occurs_chars (c : ascii) (l : chars) :
  occurs c (string_of_list_ascii l) = existsb (fun x => Ascii.eqb x c) l.
Proof.
  induction l as [|x l IH]; simpl; [reflexivity | now rewrite IH].
Qed.

Lemma default_output_named (options : ConversionOptions) :
  truthy_opt (outputPath options) = false ->
  exists directory,
    resolveOutputPath options
    = (directory
         ++ Path.basename (inputPath options)
              (Path.extname (inputPath options))
         ++ ".pdf")%string
    /\ (directory = EmptyString
        \/ exists d, directory = (d ++ "/")%string).
Proof.
  intros Hnone.
  assert (Hdefault :
            resolveOutputPath options
            = Path.join (Path.dirname (inputPath options))
                (Path.basename (inputPath options)
                   (Path.extname (inputPath options)) ++ ".pdf")%string).
  { unfold resolveOutputPath, or_else.
    destruct (outputPath options) as [given|]; [|reflexivity].
    simpl in Hnone. now rewrite Hnone. }
  rewrite Hdefault. unfold join, dirname, basename, extname, lift1.
  rewrite !list_ascii_of_string_append, !list_ascii_of_string_of_list_ascii.
  destruct (default_name_chars (list_ascii_of_string (inputPath options)))
    as (prefix & -> & Hprefix).
  exists (string_of_list_ascii prefix).
  rewrite !string_of_list_ascii_append. split; [reflexivity|].
  destruct Hprefix as [-> | (d & ->)]; [now left|].
  right. exists (string_of_list_ascii d).
  now rewrite string_of_list_ascii_append.
Qed.

(** X15.  With no usable [outputPath], whatever the input path looks like
    (relative, with [.] or [..] segments, repeated or trailing
    separators), the PDF is named after the input: the resolved path is a
    directory part, empty or ending with a separator, followed by the base
    name of the input without its extension and by [.pdf]; that base name
    holds no separator. *)
Theorem default_output_is_named_after_input (options : ConversionOptions) :
  let stem :=
    Path.basename (inputPath options) (Path.extname (inputPath options)) in
  truthy_opt (outputPath options) = false ->
  occurs "/"%char stem = false
  /\ exists directory,
       resolveOutputPath options = (directory ++ stem ++ ".pdf")%string
       /\ (directory = EmptyString
           \/ exists d, directory = (d ++ "/")%string).
Proof.
  intros stem Hnone. split.
  - unfold stem, basename, extname, lift1.
    rewrite list_ascii_of_string_of_list_ascii, occurs_chars.
    pose proof (stem_slash_free (list_ascii_of_string (inputPath options)))
      as Hfree.
    induction (basename_chars _ _) as [|x l IH]; [reflexivity|].
    simpl in *. apply andb_true_iff in Hfree. destruct Hfree as [Hx Hl].
    rewrite (IH Hl), orb_false_r.
    unfold nonSlash, isSlash in Hx. now apply negb_true_iff in Hx.
  - now apply default_output_named.
Qed.

End DefaultName.

(** X15 on a relative input path with a [..] segment and a name with two
    dots. *)
Lemma default_output_is_named_after_input_witness :
  Converter.resolveOutputPath
    {| inputPath := "docs/../notes/plan.v2.md"; outputPath := None;
       customCSS := None |}
  = "notes/plan.v2.pdf"
  /\ exists directory,
       Converter.resolveOutputPath
         {| inputPath := "docs/../notes/plan.v2.md"; outputPath := None;
            customCSS := None |}
       = (directory ++ "plan.v2" ++ ".pdf")%string
       /\ (directory = EmptyString
           \/ exists d, directory = (d ++ "/")%string).
Proof.
  split; [reflexivity|].
  exact (proj2 (default_output_is_named_after_input
                  {| inputPath := "docs/../notes/plan.v2.md";
                     outputPath := None; customCSS := None |}
                  eq_refl)).
Defined.

(* ================================================================== *)
(** * A browser that works *)
(* ================================================================== *)

Section ReliableBrowser.
Import JS Effects Converter Reading.

Variable drv : Driver.
Hypothesis reliable : reliableBrowser drv.

(** The next call of the run returns. *)
Ltac returning :=
  destruct reliable
    as (Hlaunch & Hpage & Hset & Hwait & Hpdf & Hquery & Hshot & Hclose);
  repeat (first
            [ rewrite Hset | rewrite Hwait | rewrite Hpdf
            | rewrite Hshot | rewrite Hclose
            | match goal with
              | |- context [puppeteer_launch drv ?o ?h] =>
                  destruct (Hlaunch o h) as [? ->]
              | |- context [browser_newPage drv ?b ?h] =>
                  destruct (Hpage b h) as [? ->]
              | |- context [page_query drv ?p ?s ?h] =>
                  destruct (Hquery p s h) as [? ->]
              end ];
          reduce_run).

Lemma convertMarkdownToPDF_succeeds (options : ConversionOptions)
    (h : History) (content : string) (tokens : list Marked.Token) :
  fs_readFile drv (inputPath options) "utf-8" h = Returned content ->
  marked_lexer drv content = Returned tokens ->
  exists h',
    convertMarkdownToPDF drv options h
    = (Returned (succeeded (resolveOutputPath options)), h').
Proof.
  intros Hread Hlex. unfold convertMarkdownToPDF. reduce_run.
  rewrite Hread. reduce_run. rewrite Hlex. reduce_run.
  returning. eexists. reflexivity.
Qed.

Lemma convertMermaidToPNG_succeeds (options : MermaidConversionOptions)
    (h : History) :
  exists h',
    convertMermaidToPNG drv options h
    = (Returned (succeeded (mermaid_outputPath options)), h').
Proof.
  unfold convertMermaidToPNG. reduce_run. returning.
  eexists. reflexivity.
Qed.

Lemma convertMermaidToPDF_succeeds (options : MermaidConversionOptions)
    (h : History) :
  exists h',
    convertMermaidToPDF drv options h
    = (Returned (succeeded (mermaid_outputPath options)), h').
Proof.
  unfold convertMermaidToPDF. reduce_run. returning.
  eexists. reflexivity.
Qed.

End ReliableBrowser.

Section WorkingBrowser.
Import JS Effects Converter Reading.

(** X16.  With a browser whose calls all return (the wait within the
    deadline, [page.$] with an element), the two diagram operations always
    succeed, and the Markdown conversion succeeds as soon as the input
    file can be read and parsed; the path reported is the resolved output
    path. *)
Theorem reliable_browser_gives_success (drv : Driver) (h : History) :
  reliableBrowser drv ->
  (forall options content tokens,
      fs_readFile drv (inputPath options) "utf-8" h = Returned content ->
      marked_lexer drv content = Returned tokens ->
      exists h',
        convertMarkdownToPDF drv options h
        = (Returned (succeeded (resolveOutputPath options)), h'))
  /\ (forall options, exists h',
        convertMermaidToPNG drv options h
        = (Returned (succeeded (mermaid_outputPath options)), h'))
  /\ (forall options, exists h',
        convertMermaidToPDF drv options h
        = (Returned (succeeded (mermaid_outputPath options)), h')).
Proof.
  intros Hreliable. split; [|split]; intros options.
  - intros content tokens. now apply convertMarkdownToPDF_succeeds.
  - now apply convertMermaidToPNG_succeeds.
  - now apply convertMermaidToPDF_succeeds.
Qed.

Lemma instant_is_reliable : reliableBrowser Scenario.instant.
Proof.
  unfold reliableBrowser. repeat split; intros; now eexists.
Qed.

End WorkingBrowser.

(** X16 on the page whose diagram is drawn from the start. *)
Lemma reliable_browser_gives_success_witness :
  exists h',
    Converter.convertMermaidToPDF Scenario.instant Scenario.diagramOptions []
    = (Effects.Returned (Converter.succeeded "/x/diagram.png"), h').
Proof.
  exact (proj2 (proj2
           (reliable_browser_gives_success Scenario.instant []
              instant_is_reliable))
           Scenario.diagramOptions).
Defined.
(* ================================================================== *)
(** * From a code block to the document *)
(* ================================================================== *)

Section Blocks.
Import JS Converter Reading.

Lemma string_append_assoc (a b c : string) :
  ((a ++ b) ++ c = a ++ b ++ c)%string.
Proof.
  induction a as [|x a IH]; simpl; [reflexivity | now rewrite IH].
Qed.

Lemma string_append_nil_r (a : string) : (a ++ "" = a)%string.
Proof.
  induction a as [|x a IH]; simpl; [reflexivity | now rewrite IH].
Qed.

Lemma contains_itself (s : string) : contains s s.
Proof.
  exists EmptyString, EmptyString. now rewrite string_append_nil_r.
Qed.

Lemma contains_inside (part whole before after : string) :
  contains part whole -> contains part (before ++ whole ++ after).
Proof.
  intros (b & a & ->). exists (before ++ b)%string, (a ++ after)%string.
  now rewrite !string_append_assoc.
Qed.

Lemma concat_cons (s : string) (l : list string) :
  String.concat EmptyString (s :: l)
  = (s ++ String.concat EmptyString l)%string.
Proof.
  destruct l; simpl; [now rewrite string_append_nil_r | reflexivity].
Qed.

Lemma contains_concat (part s : string) (l : list string) :
  In s l -> contains part s -> contains part (String.concat EmptyString l).
Proof.
  intros Hin Hpart. induction l as [|x l IH]; [contradiction|].
  rewrite concat_cons. destruct Hin as [-> | Hin].
  - apply (contains_inside part s EmptyString). exact Hpart.
  - specialize (IH Hin). destruct IH as (b & a & ->).
    exists (x ++ b)%string, a. now rewrite string_append_assoc.
Qed.

Lemma render_contains (code : Marked.Code -> string) (c : Marked.Code)
    (tok : Marked.Token) :
  hasBlock c tok -> contains (code c) (Marked.render code tok).
Proof.
  induction 1 as [|opening closing children child Hin _ IH].
  - apply contains_itself.
  - simpl. apply contains_inside.
    apply (contains_concat _ (Marked.render code child)); [|exact IH].
    now apply in_map.
Qed.

Lemma append_regrouped (a b c d e f g : string) :
  (a ++ b ++ c ++ d ++ e ++ f ++ g
   = (a ++ b ++ c ++ d ++ e) ++ f ++ g)%string.
Proof.
  now rewrite !string_append_assoc.
Qed.

Lemma createHTMLDocument_contains (part bodyHTML : string)
    (css : option string) :
  contains part bodyHTML -> contains part (createHTMLDocument bodyHTML css).
Proof.
  intros Hpart. unfold createHTMLDocument.
  rewrite append_regrouped. now apply contains_inside.
Qed.

Lemma contains_code (before p1 p2 p3 code p4 p5 after : string) :
  contains (code ++ p4)
    (before ++ (p1 ++ p2 ++ p3 ++ code ++ p4 ++ p5) ++ after).
Proof.
  exists (before ++ p1 ++ p2 ++ p3)%string, (p5 ++ after)%string.
  now rewrite !string_append_assoc.
Qed.

(** X17.  A fenced code block of the Markdown source, at any depth of the
    token tree, reaches the document that is loaded into the page: a block
    tagged [mermaid] as a [div] of class [mermaid] around its text exactly
    as written, so that the diagram library can read it; any other block,
    unless already flagged as escaped, with its text escaped. *)
Theorem code_blocks_reach_the_document (tokens : list Marked.Token)
    (css : option string) (tok : Marked.Token) (c : Marked.Code) :
  In tok tokens ->
  hasBlock c tok ->
  let document :=
    createHTMLDocument (Marked.parse renderer_code tokens) css in
  (strictEquals (Marked.lang c) "mermaid" = true ->
   contains (Spec.mermaidContainer (Marked.text c)) document)
  /\ (strictEquals (Marked.lang c) "mermaid" = false ->
      truthy_flag (Marked.escaped c) = false ->
      contains (escapeHTML (Marked.text c) ++ "</code></pre>") document).
Proof.
  intros Hin Hblock document.
  assert (Hcode : contains (renderer_code c) document).
  { apply createHTMLDocument_contains. unfold Marked.parse.
    apply (contains_concat _ (Marked.render renderer_code tok));
      [now apply in_map | now apply render_contains]. }
  clearbody document. split.
  - intros Hmermaid. unfold renderer_code in Hcode.
    rewrite Hmermaid in Hcode. exact Hcode.
  - intros Hother Hraw. unfold renderer_code in Hcode.
    rewrite Hother, Hraw in Hcode.
    destruct Hcode as (before & after & ->).
    apply contains_code.
Qed.

End Blocks.

(** X17 on a diagram block inside a block quote. *)
Lemma code_blocks_reach_the_document_witness :
  Reading.contains (Spec.mermaidContainer "graph TD")
    (Converter.createHTMLDocument
       (Marked.parse Converter.renderer_code
          [ Marked.Container "<blockquote>"
              [ Marked.CodeBlock Scenario.diagramBlock ] "</blockquote>" ])
       None).
Proof.
  refine (proj1
            (code_blocks_reach_the_document
               [ Marked.Container "<blockquote>"
                   [ Marked.CodeBlock Scenario.diagramBlock ]
                   "</blockquote>" ]
               None
               (Marked.Container "<blockquote>"
                  [ Marked.CodeBlock Scenario.diagramBlock ] "</blockquote>")
               Scenario.diagramBlock _ _)
            eq_refl).
  - simpl. left. reflexivity.
  - apply (Reading.BlockBelow Scenario.diagramBlock "<blockquote>"
             "</blockquote>" [ Marked.CodeBlock Scenario.diagramBlock ]
             (Marked.CodeBlock Scenario.diagramBlock)).
    + simpl. left. reflexivity.
    + apply Reading.BlockHere.
Defined.

(* ================================================================== *)
(** * An empty output path *)
(* ================================================================== *)

Section EmptyOutputPath.
Import JS Effects Converter.

(** Where a run of [convertMarkdownToPDF] writes and what it reports. *)
Lemma convertMarkdownToPDF_target (drv : Driver) (options : ConversionOptions)
    (h : History) :
  exists r added,
    convertMarkdownToPDF drv options h = (Returned r, (added ++ h)%list)
    /\ (forall page capture,
          In (EvPdf page capture) added ->
          pdf_path capture = resolveOutputPath options)
    /\ (success r = true ->
        result_outputPath r = Some (resolveOutputPath options)
        /\ exists page capture, In (EvPdf page capture) added)
    /\ (result_outputPath r = None
        \/ result_outputPath r = Some (resolveOutputPath options)).
Proof.
  run convertMarkdownToPDF;
    lazymatch goal with
    | |- exists r added, (Returned ?x, ?l) = _ /\ _ =>
        let a := added_to h l in
        exists x, a; split; [reflexivity|]
    end;
    (split; [|split]).
  all: try (simpl; intros page capture Hin;
            repeat match goal with
                   | H : _ \/ _ |- _ => destruct H as [H | H]
                   | H : False |- _ => contradiction
                   end;
            try discriminate Hin; now inversion Hin).
  all: try (simpl; intros Hsuccess;
            first [ discriminate Hsuccess
                  | split; [reflexivity|]; do 2 eexists; simpl; eauto ]).
  all: simpl; auto.
Qed.

Lemma named_path_is_not_empty (directory stem : string) :
  (directory ++ stem ++ ".pdf")%string <> EmptyString.
Proof.
  destruct directory; [|discriminate].
  destruct stem; discriminate.
Qed.

(** C10.  With the empty string as [outputPath], the operation does what
    it does when no [outputPath] is given, call for call.  The path it
    then falls back to is named after the input (the base name of the
    input without its extension, then [.pdf]; for an input that names a
    file, the normal form of the input with its extension replaced by
    [.pdf]) and is never empty.  Every [page.pdf] of the run writes to
    that path, a result with [success: true] reports that path and comes
    with such a write, and no result reports the empty string.  With a
    browser that works and an input that can be read and parsed, the
    operation does report success with that path. *)
Theorem empty_output_path_falls_back (drv : Driver) (input : string)
    (css : option string) (h : History) :
  let given :=
    {| inputPath := input; outputPath := Some EmptyString;
       customCSS := css |} in
  let absent :=
    {| inputPath := input; outputPath := None; customCSS := css |} in
  let derived := resolveOutputPath absent in
  convertMarkdownToPDF drv given h = convertMarkdownToPDF drv absent h
  /\ (exists directory,
        derived
        = (directory ++ Path.basename input (Path.extname input)
             ++ ".pdf")%string)
  /\ (Spec.namesFile input = true ->
      derived = Path.normalize (Spec.replaceExtension input ".pdf"))
  /\ derived <> EmptyString
  /\ (exists r added,
        convertMarkdownToPDF drv given h = (Returned r, (added ++ h)%list)
        /\ (forall page capture,
              In (EvPdf page capture) added -> pdf_path capture = derived)
        /\ (success r = true ->
            result_outputPath r = Some derived
            /\ exists page capture, In (EvPdf page capture) added)
        /\ result_outputPath r <> Some EmptyString)
  /\ (Reading.reliableBrowser drv ->
      forall content tokens,
        fs_readFile drv input "utf-8" h = Returned content ->
        marked_lexer drv content = Returned tokens ->
        exists h',
          convertMarkdownToPDF drv given h
          = (Returned (succeeded derived), h')).
Proof.
  intros given absent derived.
  destruct (default_output_named absent eq_refl)
    as (directory & Hnamed & _).
  fold derived in Hnamed. simpl in Hnamed.
  assert (Hfilled : derived <> EmptyString).
  { rewrite Hnamed. apply named_path_is_not_empty. }
  split; [reflexivity|].
  split; [now exists directory|].
  split; [apply resolveOutputPath_default|].
  split; [exact Hfilled|].
  split.
  - destruct (convertMarkdownToPDF_target drv given h)
      as (r & added & Hrun & Hwrites & Hreports & Hpath).
    change (resolveOutputPath given) with derived in *.
    exists r, added. repeat split; trivial.
    + now apply Hreports.
    + now apply Hreports.
    + destruct Hpath as [Hpath | Hpath]; rewrite Hpath; congruence.
  - intros Hreliable content tokens Hread Hlex.
    exact (convertMarkdownToPDF_succeeds drv Hreliable given h content
             tokens Hread Hlex).
Qed.

End EmptyOutputPath.
